(** * cadet: a single-endpoint HTTP-RPC dispatcher

    A shallow embedding of the Go package [cadet] (server, request and
    response files) and the properties of its dispatcher, registry,
    middleware chain and strict-path guard.

    Conventions of the embedding.
    - Go strings and byte slices are [string] (a list of bytes).
    - A Go map is a [gmap]; a nil function value is [None].
    - [http.ResponseWriter] is a mutable object: it is threaded through
      every handler as part of a [World], next to the state [U] that user
      closures (middleware, command handlers) may own.
    - The closures built by [NewServer] and [Use] capture the pointer to the
      server and read its fields when a request arrives, not when they are
      built: they are functions of the server value at call time.
    - What belongs to the Go standard library and not to this package
      (JSON decoding, the Unicode branch of [strings.ToLower], the routing
      of [http.ServeMux]) is an interface the development is parametric in.
    - User closures act on the response writer and on their own state;
      they do not call the configuration methods of the server they run
      in, whose fields are private to the package.
    - Requests are handled one at a time; the package has no
      synchronisation of its own. *)

From Stdlib Require Import Ascii String.
From stdpp Require Import base option list strings gmap fin_maps.

Local Open Scope string_scope.

(** ** Strings *)

Module GoStrings.

(** 'A' <= c && c <= 'Z' *)
Definition isUpper (c : ascii) : bool :=
  let n := nat_of_ascii c in (65 <=? n)%nat && (n <=? 90)%nat.

(** c < utf8.RuneSelf *)
Definition isASCII (c : ascii) : bool := (nat_of_ascii c <? 128)%nat.

(** c += 'a' - 'A' on an upper-case letter *)
Definition lowerByte (c : ascii) : ascii :=
  if isUpper c then ascii_of_nat (nat_of_ascii c + 32) else c.

Fixpoint mapBytes (f : ascii -> ascii) (s : string) : string :=
  match s with
  | EmptyString => EmptyString
  | String c s' => String (f c) (mapBytes f s')
  end.

Fixpoint allBytes (p : ascii -> bool) (s : string) : bool :=
  match s with
  | EmptyString => true
  | String c s' => p c && allBytes p s'
  end.

(** [strings.ToLower]: a string of ASCII bytes is lowered byte by byte;
    any other string goes through [strings.Map(unicode.ToLower, s)],
    which is the parameter [unicodeLower]. *)
Definition ToLower (unicodeLower : string -> string) (s : string) : string :=
  if allBytes isASCII s then mapBytes lowerByte s else unicodeLower s.

(** [strings.Split(s, sep)] for a separator of one byte: the pieces of
    [s] between the occurrences of [sep]; never an empty slice. *)
Fixpoint Split (s : string) (sep : ascii) : list string :=
  match s with
  | EmptyString => [EmptyString]
  | String c s' =>
      if Ascii.eqb c sep then EmptyString :: Split s' sep
      else match Split s' sep with
           | piece :: pieces => String c piece :: pieces
           | [] => [String c EmptyString]
           end
  end.

(** [strings.HasPrefix] *)
Definition HasPrefix (s prefix : string) : bool := String.prefix prefix s.

(** The bytes of [s] before the first [sep], all of [s] without one. *)
Fixpoint before (sep : ascii) (s : string) : string :=
  match s with
  | EmptyString => EmptyString
  | String c s' => if Ascii.eqb c sep then EmptyString else String c (before sep s')
  end.

(** Equality of two strings up to the case of ASCII letters. *)
Definition equalFoldASCII (s t : string) : Prop :=
  mapBytes lowerByte s = mapBytes lowerByte t.

End GoStrings.

(** ** The part of net/http the package relies on *)

Module http.

Definition StatusOK : Z := 200.
Definition StatusNotFound : Z := 404.
Definition StatusMethodNotAllowed : Z := 405.
Definition StatusUnsupportedMediaType : Z := 415.
Definition StatusUnprocessableEntity : Z := 422.

(** [http.Header], with keys in canonical form. *)
Definition Header_Get (h : gmap string (list string)) (key : string) : string :=
  match h !! key with
  | Some (v :: _) => v
  | _ => ""
  end.

Definition Header_Add (key value : string) (h : gmap string (list string))
  : gmap string (list string) :=
  <[key := (default [] (h !! key) ++ [value])%list]> h.


(** Go's [error] values, by their message. *)
Definition error : Type := string.

(** [*http.Request], as far as the package reads it: [Body] is what
    [io.ReadAll(r.Body)] yields and [Form] is [r.Form] once the request
    has been parsed, which is what [r.FormValue] consults. *)
Record Request := {
  Method : string;
  URL_Path : string;
  Header : gmap string (list string);
  Body : error + string;
  Form : gmap string (list string);
}.

(** [r.FormValue(key)]: the first value of [key], or the empty string. *)
Definition FormValue (r : Request) (key : string) : string :=
  match Form r !! key with
  | Some (v :: _) => v
  | _ => ""
  end.

(** [http.ResponseWriter]: the header map being built, the status line
    once written together with the headers that went out with it, and
    the body written so far. *)
Record ResponseWriter := {
  header : gmap string (list string);
  status : option Z;
  sent : gmap string (list string);
  body : string;
}.

Definition newResponseWriter : ResponseWriter :=
  {| header := ∅; status := None; sent := ∅; body := "" |}.

(** [w.WriteHeader(code)], for a final status code (200 to 999): the first
    call fixes the status and the headers; a later call is superfluous
    and changes nothing. *)
Definition WriteHeader (code : Z) (w : ResponseWriter) : ResponseWriter :=
  match status w with
  | Some _ => w
  | None => {| header := header w; status := Some code;
               sent := header w; body := body w |}
  end.

(** [w.Header().Add(key, value)] and [w.Header().Set(key, value)] *)
Definition AddHeader (key value : string) (w : ResponseWriter) : ResponseWriter :=
  {| header := Header_Add key value (header w); status := status w;
     sent := sent w; body := body w |}.




(** The status the client receives: the one written, or the implicit
    200 of a handler that returned without writing any. *)
Definition StatusCode (w : ResponseWriter) : Z := default StatusOK (status w).

End http.

(** ** Data model of the package *)

Inductive ContentType :=
  | ContentTypeUnknown
  | ContentTypeMultipart
  | ContentTypeJSON.

Record Config := {
  Bind : string;
  Path : string;
}.

(** The envelope: [Data] is a [json.RawMessage], the bytes of the field. *)
Record Command := {
  Name : string;
  Data : string;
}.

(** The values a variadic [...any] argument of [Commands] can hold: a
    string, a function of the handler type (possibly nil), or a value of
    any other dynamic type. *)
Inductive any (handler : Type) :=
  | any_string (s : string)
  | any_handler (h : option handler)
  | any_other.
Arguments any_string {handler} s.
Arguments any_handler {handler} h.
Arguments any_other {handler}.

(** What the package takes from the standard library besides net/http:
    [unicodeLower] is [strings.Map(unicode.ToLower, s)], the branch of
    [strings.ToLower] for a string that is not ASCII only, and
    [json_Unmarshal data] is [json.Unmarshal(data, command)] on a fresh
    [&Command{}]. *)
Class GoLib := {
  unicodeLower : string -> string;
  json_Unmarshal : string -> http.error + Command;
}.

(** What a handler acts on: the response writer and the state [U] owned by
    user closures. *)
Record World (U : Type) := {
  resp : http.ResponseWriter;
  user : U;
}.
Arguments resp {U} _.
Arguments user {U} _.

(** [http.HandlerFunc], [Middleware] and [Response]. *)
Definition HandlerFunc (U : Type) : Type := http.Request -> World U -> World U.
Definition Middleware (U : Type) : Type := HandlerFunc U -> HandlerFunc U.
Definition Response (U : Type) : Type := World U -> World U.

(** [mux.ServeHTTP] for a mux with one registration: how the mux gets from
    the pattern and its handler to the handling of a request is net/http's. *)
Class Router (U : Type) := {
  route : string -> HandlerFunc U -> HandlerFunc U;
}.

Section Cadet.

(** [T] is the type of the shared context. *)
Context {T U : Type} {lib : GoLib} {router : Router U}.

Definition onWriter (f : http.ResponseWriter -> http.ResponseWriter)
    (σ : World U) : World U :=
  {| resp := f (resp σ); user := user σ |}.

(** [Request]: the field [RawResponse] is the writer of the [World] the
    handler is run in. *)
Record Request := {
  command : Command;
  RawRequest : http.Request;
}.

(** [func(r *Request, context T) Response], with the effects of its body *)
Definition CommandHandler : Type :=
  Request -> T -> World U -> World U * option (Response U).

(** [Server[T]] without its pointer to the [http.Server]: the fields the
    closures of the package read through the captured receiver. *)
Record Server := {
  handlers : gmap string (option CommandHandler);
  path : string;
  context : T;
  strictMode : bool;
}.

(** [http.ServeMux] holding the one registration the package makes. The
    registered closure captures the server: it takes its value at the
    time of the call. *)
Record ServeMux := {
  pattern : string;
  registered : Server -> HandlerFunc U;
}.

Definition ServeMux_ServeHTTP (mux : ServeMux) (s : Server) : HandlerFunc U :=
  route (pattern mux) (registered mux s).

(** [http.Server]; durations in nanoseconds. *)
Record http_Server := {
  Addr : string;
  hs_Handler : ServeMux;
  ReadTimeout : Z;
  WriteTimeout : Z;
}.

(** A [*Server[T]]: the struct and the [http.Server] its field
    [httpServer] points to. *)
Record Cadet := {
  server : Server;
  httpServer : http_Server;
}.

(** *** request.go *)

(** [ReadCommand], [unmarshal] being [json.Unmarshal] at the type of [obj]. *)
Definition ReadCommand {A : Type} (unmarshal : string -> http.error + A)
    (c : Request) : http.error + A :=
  unmarshal (Data (command c)).

(** *** response.go *)


Definition Status (status : Z) : Response U :=
  onWriter (http.WriteHeader status).

(** *** The request path of the server *)

Definition contentTypes : gmap string ContentType :=
  <["application/json" := ContentTypeJSON]>
    (<["multipart/form-data" := ContentTypeMultipart]> ∅).

Definition getContentType (r : http.Request) : ContentType :=
  match contentTypes !!
          GoStrings.ToLower unicodeLower
            (hd "" (GoStrings.Split
                      (http.Header_Get (http.Header r) "Content-Type") ";"))
  with
  | Some contentType => contentType
  | None => ContentTypeUnknown
  end.

(** The first half of [getHandler]: the bytes [data] the envelope is
    decoded from, or the error it returns before decoding. *)
Definition envelopeData (r : http.Request) (contentType : ContentType)
  : http.error + string :=
  match contentType with
  | ContentTypeJSON => http.Body r
  | ContentTypeMultipart =>
      let body := http.FormValue r "command" in
      if String.eqb body "" then inl "no JSON payload found in multipart request"
      else inr body
  | ContentTypeUnknown => inr ""
  end.

Definition getHandler (s : Server) (r : http.Request) (contentType : ContentType)
  : option CommandHandler * option Command * option http.error :=
  match envelopeData r contentType with
  | inl err => (None, None, Some err)
  | inr data =>
      match json_Unmarshal data with
      | inl err => (None, None, Some err)
      | inr command =>
          match default None (handlers s !! Name command) with
          | None => (None, None, None)
          | Some handler => (Some handler, Some command, None)
          end
      end
  end.

Definition withStrictPath (s : Server) : Middleware U :=
  fun h r σ =>
    if negb (strictMode s) && String.eqb (path s) "/"
       && negb (String.eqb (http.URL_Path r) "/")
    then onWriter (http.WriteHeader http.StatusNotFound) σ
    else h r σ.

(** [command] is never nil where [handler] is not: the default of the
    last case is not reached. *)
Definition executeHandler (s : Server) : HandlerFunc U :=
  fun r σ =>
    let contentType := getContentType r in
    match contentType with
    | ContentTypeUnknown =>
        onWriter (http.WriteHeader http.StatusUnsupportedMediaType) σ
    | _ =>
        if negb (String.eqb (http.Method r) "POST") then
          onWriter (http.WriteHeader http.StatusMethodNotAllowed)
            (onWriter (http.AddHeader "Allow" "POST") σ)
        else
          match getHandler s r contentType with
          | (_, _, Some err) =>
              onWriter (http.WriteHeader http.StatusUnprocessableEntity) σ
          | (None, _, None) =>
              onWriter (http.WriteHeader http.StatusNotFound) σ
          | (Some handler, command, None) =>
              let command := default {| Name := ""; Data := "" |} command in
              let '(σ, responder) :=
                handler {| command := command; RawRequest := r |} (context s) σ in
              match responder with
              | Some responder => responder σ
              | None => σ
              end
          end
    end.

(** *** Construction and configuration *)

Definition NewServer (config : Config) (context : T) : Config * Cadet :=
  let config :=
    if negb (GoStrings.HasPrefix (Path config) "/")
    then {| Bind := Bind config; Path := "/" +:+ Path config |}
    else config in
  let mux :=
    {| pattern := Path config;
       registered := fun s => withStrictPath s (executeHandler s) |} in
  (config,
   {| server := {| handlers := ∅; path := Path config;
                   context := context; strictMode := false |};
      httpServer := {| Addr := Bind config; hs_Handler := mux;
                       ReadTimeout := 5 * 1000000000;
                       WriteTimeout := 10 * 1000000000 |} |}).

(** The loop [for i, j := 0, len-1; i < j; i, j = i+1, j-1] that swaps
    [middleware[i]] and [middleware[j]]; [fuel] bounds its iterations. *)
Fixpoint swapLoop {A : Type} (fuel i j : nat) (l : list A) : list A :=
  match fuel with
  | O => l
  | S fuel =>
      if (i <? j)%nat then
        match l !! i, l !! j with
        | Some a, Some b => swapLoop fuel (i + 1) (j - 1) (<[j := a]> (<[i := b]> l))
        | _, _ => l
        end
      else l
  end.

(** The handler [Use] builds, for the server value [s] its closures see
    when a request arrives. *)
Definition chain (middleware : list (Middleware U)) (s : Server) : HandlerFunc U :=
  let handler := executeHandler s in
  let middleware := withStrictPath s :: middleware in
  let middleware :=
    swapLoop (length middleware) 0 (length middleware - 1) middleware in
  fold_left (fun handler mw => mw handler) middleware handler.

Definition Use (c : Cadet) (middleware : list (Middleware U)) : Cadet :=
  let mux := {| pattern := path (server c); registered := chain middleware |} in
  {| server := server c;
     httpServer := {| Addr := Addr (httpServer c); hs_Handler := mux;
                      ReadTimeout := ReadTimeout (httpServer c);
                      WriteTimeout := WriteTimeout (httpServer c) |} |}.

(** [s.Command(name, handler)] on the struct. *)
Definition Server_Command (s : Server) (name : string)
    (handler : option CommandHandler) : Server :=
  {| handlers := <[name := handler]> (handlers s); path := path s;
     context := context s; strictMode := strictMode s |}.

(** The body of the loop of [Commands] at index [i], then the rest of
    the loop. *)
Fixpoint Commands_loop (i : nat) (args : list (any CommandHandler))
    (currentName : string) (s : Server) : Server * option http.error :=
  match args with
  | [] => (s, None)
  | arg :: args =>
      let isName := Nat.eqb (i mod 2) 0 in
      let block1 : http.error + string :=
        if isName then
          match arg with
          | any_string name => inr name
          | _ => inl "even arg must be command name"
          end
        else inr currentName in
      match block1 with
      | inl err => (s, Some err)
      | inr currentName =>
          let block2 : http.error + Server * string :=
            if negb isName then
              match arg with
              | any_handler handler => inr (Server_Command s currentName handler, "")
              | _ => inl "odd arg must be command handler"
              end
            else inr (s, currentName) in
          match block2 with
          | inl err => (s, Some err)
          | inr (s, currentName) => Commands_loop (S i) args currentName s
          end
      end
  end.

Definition withServer (c : Cadet) (s : Server) : Cadet :=
  {| server := s; httpServer := httpServer c |}.

Definition Cadet_Command (c : Cadet) (name : string)
    (handler : option CommandHandler) : Cadet :=
  withServer c (Server_Command (server c) name handler).

Definition Commands (c : Cadet) (args : list (any CommandHandler))
  : Cadet * option http.error :=
  if Nat.eqb (length args) 0 || negb (Nat.eqb (length args mod 2) 0) then
    (c, Some "args must be pairs of command names and handlers")
  else
    let '(s, err) := Commands_loop 0 args "" (server c) in
    (withServer c s, err).

Definition Handler (c : Cadet) : ServeMux := hs_Handler (httpServer c).

(** *** Serving *)

Definition ServeHTTP (c : Cadet) (r : http.Request) (σ : World U)
  : Cadet * World U :=
  let s := {| handlers := handlers (server c); path := path (server c);
              context := context (server c); strictMode := true |} in
  let c := withServer c s in
  (c, ServeMux_ServeHTTP (hs_Handler (httpServer c)) (server c) r σ).

(** What [httpServer.ListenAndServe] does with a request accepted on its
    own listener: it hands it, with a new response writer, to the
    [Handler] of the [http.Server]. *)
Definition listenerServe (c : Cadet) (r : http.Request) (u : U) : World U :=
  ServeMux_ServeHTTP (hs_Handler (httpServer c)) (server c) r
    {| resp := http.newResponseWriter; user := u |}.

(** [Start], over the requests its listener accepts: the responses in
    the order of the requests, and the user state left. No field of the
    server is written. *)
Fixpoint Start (c : Cadet) (accepted : list http.Request) (u : U)
  : list http.ResponseWriter * U :=
  match accepted with
  | [] => ([], u)
  | r :: accepted =>
      let σ := listenerServe c r u in
      let '(ws, u) := Start c accepted (user σ) in
      (resp σ :: ws, u)
  end.

(** *** The operations of a configured server, in sequence *)

Inductive Op :=
  | OpUse (middleware : list (Middleware U))
  | OpCommand (name : string) (handler : option CommandHandler)
  | OpCommands (args : list (any CommandHandler))
  | OpHandler (r : http.Request)
  | OpServeHTTP (r : http.Request)
  | OpStart (accepted : list http.Request)
  | OpStop.

(** One operation on the server [c] with user state [u]: the server and
    the user state after it, and the responses it produced. [OpHandler r]
    is a request given to the value [Handler] returns; [Stop] is the
    shutdown of the transport and writes no field. *)
Definition step (cu : Cadet * U) (op : Op) : Cadet * U * list http.ResponseWriter :=
  let '(c, u) := cu in
  match op with
  | OpUse middleware => (Use c middleware, u, [])
  | OpCommand name handler => (Cadet_Command c name handler, u, [])
  | OpCommands args => (fst (Commands c args), u, [])
  | OpHandler r => let σ := listenerServe c r u in (c, user σ, [resp σ])
  | OpServeHTTP r =>
      let '(c, σ) := ServeHTTP c r {| resp := http.newResponseWriter; user := u |} in
      (c, user σ, [resp σ])
  | OpStart accepted => let '(ws, u) := Start c accepted u in (c, u, ws)
  | OpStop => (c, u, [])
  end.

Fixpoint run (cu : Cadet * U) (ops : list Op) : Cadet * U * list http.ResponseWriter :=
  match ops with
  | [] => (cu, [])
  | op :: ops =>
      let '(cu, ws) := step cu op in
      let '(cu, ws') := run cu ops in
      (cu, (ws ++ ws')%list)
  end.

(** *** Vocabulary of the specification *)

(** The mode the guard tests: the flag is unset, that is, the server has
    not been entered through [ServeHTTP], the method that mounts it in a
    router of the caller. It is the standalone serving of the
    specification for as long as the server is not mounted as well. *)
Definition standalone (s : Server) : bool := negb (strictMode s).

(** A middleware with logic before and after the inner handler. *)
Definition around (pre post : World U -> World U) : Middleware U :=
  fun h r σ => post (h r (pre σ)).

(** The composition in which the first middleware of the list is the
    outermost and [h] the innermost. *)
Definition nest (middleware : list (Middleware U)) (h : HandlerFunc U)
  : HandlerFunc U :=
  fold_right (fun mw h => mw h) h middleware.

(** A request with the method, path and headers of [r] and any other
    body and form. *)
Definition withPayload (r : http.Request) (body : http.error + string)
    (form : gmap string (list string)) : http.Request :=
  {| http.Method := http.Method r; http.URL_Path := http.URL_Path r;
     http.Header := http.Header r; http.Body := body; http.Form := form |}.

(** The same library with another JSON decoder. *)
Definition withDecoder (json : string -> http.error + Command) : GoLib :=
  {| unicodeLower := unicodeLower; json_Unmarshal := json |}.

(** The logic of a list of [around] middleware on the way in, first to
    last, and on the way out, last to first. *)
Definition wayIn (ms : list ((World U -> World U) * (World U -> World U)))
    (σ : World U) : World U :=
  fold_left (fun σ m => fst m σ) ms σ.

Definition wayOut (ms : list ((World U -> World U) * (World U -> World U)))
    (σ : World U) : World U :=
  fold_right (fun m σ => snd m σ) σ ms.

(** Single registration of each pair, in order. *)
Definition registerPairs (s : Server)
    (pairs : list (string * option CommandHandler)) : Server :=
  fold_left (fun s p => Server_Command s (fst p) (snd p)) pairs s.

(** The argument list [name1, handler1, name2, handler2, ...] of pairs. *)
Definition pairArgs (pairs : list (string * option CommandHandler))
  : list (any CommandHandler) :=
  flat_map (fun p => [any_string (fst p); any_handler (snd p)]) pairs.

(** *** response.go, the directives that encode JSON *)




(** *** cors.go *)

Definition CORS (origin : string) : Middleware U :=
  fun h r σ =>
    if String.eqb (http.Method r) "OPTIONS" then
      let σ := onWriter (http.AddHeader "Access-Control-Allow-Origin" origin) σ in
      let σ := onWriter (http.AddHeader "Access-Control-Allow-Credentials" "true") σ in
      let σ := onWriter (http.AddHeader "Access-Control-Expose-Headers" "X-Auth-Token") σ in
      let σ :=
        onWriter (http.AddHeader "Access-Control-Allow-Headers"
                    "Origin, Content-Type, Accept, Authorization, X-Requested-With") σ in
      let σ :=
        onWriter (http.AddHeader "Access-Control-Allow-Methods"
                    "GET,POST,PUT,DELETE,OPTIONS") σ in
      onWriter (http.WriteHeader http.StatusOK) σ
    else h r σ.

(** The headers [CORS] adds to the answer of a preflight request. *)
Definition corsHeaders (origin : string) : list (string * string) :=
  [("Access-Control-Allow-Origin", origin);
   ("Access-Control-Allow-Credentials", "true");
   ("Access-Control-Expose-Headers", "X-Auth-Token");
   ("Access-Control-Allow-Headers",
    "Origin, Content-Type, Accept, Authorization, X-Requested-With");
   ("Access-Control-Allow-Methods", "GET,POST,PUT,DELETE,OPTIONS")].

(** What no operation changes after construction. *)
Definition sameSetup (c c' : Cadet) : Prop :=
  path (server c') = path (server c)
  /\ context (server c') = context (server c)
  /\ Addr (httpServer c') = Addr (httpServer c)
  /\ ReadTimeout (httpServer c') = ReadTimeout (httpServer c)
  /\ WriteTimeout (httpServer c') = WriteTimeout (httpServer c).

(** The handler the last pair of [pairs] named [name] holds, if there is
    such a pair. *)
Definition lastRegistered (pairs : list (string * option CommandHandler))
    (name : string) : option (option CommandHandler) :=
  fold_left (fun found p => if String.eqb (fst p) name then Some (snd p) else found)
    pairs None.

(** The handler the dispatcher calls on a decoded envelope, and what it
    does with the directive. *)
Definition invoke (handler : CommandHandler) (s : Server) (command : Command)
    (r : http.Request) (σ : World U) : World U :=
  let '(σ, responder) :=
    handler {| command := command; RawRequest := r |} (context s) σ in
  match responder with
  | Some responder => responder σ
  | None => σ
  end.

End Cadet.

(** ** Fixtures, after cadet_test.go *)

Module Fixture.

Definition dquote : string := String (ascii_of_nat 34) EmptyString.
Definition quoted (s : string) : string := dquote +:+ s +:+ dquote.

(** The envelope that names [name] and has no data, as the tests post it. *)
Definition envelope (name : string) : string :=
  "{" +:+ quoted "name" +:+ ":" +:+ quoted name +:+ "}".

Definition fooBar : string :=
  "{" +:+ quoted "foo" +:+ ":" +:+ quoted "abc" +:+ ","
      +:+ quoted "bar" +:+ ":" +:+ quoted "def" +:+ "}".

(** The body of TestRequestReadCommand. *)
Definition envelopeWithData : string :=
  "{" +:+ quoted "name" +:+ ":" +:+ quoted "cmd" +:+ ","
      +:+ quoted "data" +:+ ":" +:+ fooBar +:+ "}".

(** [json.Unmarshal] into a [Command] on the bodies the tests post; this
    instance reports any other input as an error. *)
Definition unmarshal (data : string) : http.error + Command :=
  if String.eqb data (envelope "cmd") then inr {| Name := "cmd"; Data := "" |}
  else if String.eqb data (envelope "cmd1") then inr {| Name := "cmd1"; Data := "" |}
  else if String.eqb data (envelope "unknown") then inr {| Name := "unknown"; Data := "" |}
  else if String.eqb data envelopeWithData then inr {| Name := "cmd"; Data := fooBar |}
  else if String.eqb data "invalid"
  then inl "invalid character 'i' looking for beginning of value"
  else inl "unexpected end of JSON input".

(** The strings of the tests are ASCII: the Unicode branch is not run. *)
#[export] Instance lib : GoLib :=
  {| unicodeLower := fun s => s; json_Unmarshal := unmarshal |}.

(** The user state of the tests: the log of TestMiddlewareOrder. *)
Definition Log : Type := list string.

(** A mux with one pattern: a pattern ending in a slash matches the paths
    under it, any other pattern matches the equal path; without a match
    the mux answers 404. *)
Definition matches (pattern path : string) : bool :=
  if String.eqb (substring (String.length pattern - 1) 1 pattern) "/"
  then String.prefix pattern path
  else String.eqb pattern path.

#[export] Instance mux : Router Log :=
  {| route := fun pattern h r σ =>
       if matches pattern (http.URL_Path r) then h r σ
       else onWriter (http.WriteHeader http.StatusNotFound) σ |}.

(** func(r *cadet.Request, ctx string) cadet.Response of the tests *)
Definition handlerType : Type := @CommandHandler string Log.

Definition statusHandler (status : Z) : handlerType :=
  fun _ _ σ => (σ, Some (Status status)).

(** A handler that notes its call, its payload and its context in the log. *)
Definition loggingHandler : handlerType :=
  fun r ctx σ =>
    ({| resp := resp σ;
        user := (user σ ++ ["handler(" +:+ Data (command r) +:+ "," +:+ ctx +:+ ")"])%list |},
     Some (Status http.StatusOK)).

Definition nilResponseHandler : handlerType :=
  fun _ _ σ => (σ, None).

Definition note (value : string) (σ : World Log) : World Log :=
  {| resp := resp σ; user := (user σ ++ [value])%list |}.

(** [orderMiddleware] of TestMiddlewareOrder *)
Definition orderMiddleware (value : string) : Middleware Log :=
  fun h r σ => h r (note value σ).

Definition request (method path contentType body : string) : http.Request :=
  {| http.Method := method; http.URL_Path := path;
     http.Header := {["Content-Type" := [contentType]]};
     http.Body := inr body; http.Form := ∅ |}.

Definition multipartRequest (path : string) (form : gmap string (list string))
  : http.Request :=
  {| http.Method := "POST"; http.URL_Path := path;
     http.Header := {["Content-Type" := ["multipart/form-data; boundary=x"]]};
     http.Body := inr ""; http.Form := form |}.

Definition fresh : World Log :=
  {| resp := http.newResponseWriter; user := [] |}.

(** cadet.NewServer(&cadet.Config{Path: path}, context) *)
Definition newServer (path context : string) : @Cadet string Log :=
  snd (NewServer {| Bind := ""; Path := path |} context).



End Fixture.

(** ** Properties *)

Local Open Scope list_scope.

(** *** Strings *)

Lemma Split_nonempty (s : string) (sep : ascii) : GoStrings.Split s sep <> [].
Proof.
  destruct s as [|c s]; simpl; [done|].
  destruct (Ascii.eqb c sep); [done|].
  by destruct (GoStrings.Split s sep).
Qed.

(** Index 0 of [strings.Split(s, sep)] is the part of [s] before the first
    separator. *)
Lemma Split_hd (s : string) (sep : ascii) :
  hd "" (GoStrings.Split s sep) = GoStrings.before sep s.
Proof.
  induction s as [|c s IH]; simpl; [done|].
  destruct (Ascii.eqb c sep); [done|].
  pose proof (Split_nonempty s sep) as Hne.
  destruct (GoStrings.Split s sep) as [|piece pieces]; [done|].
  simpl in *. by rewrite IH.
Qed.

Lemma before_append (sep : ascii) (s rest : string) :
  GoStrings.before sep (s +:+ String sep rest) = GoStrings.before sep s.
Proof.
  induction s as [|c s IH]; simpl.
  - by rewrite Ascii.eqb_refl.
  - destruct (Ascii.eqb c sep); [done|]. by rewrite IH.
Qed.

Lemma lowerByte_isASCII (c : ascii) :
  GoStrings.isASCII (GoStrings.lowerByte c) = GoStrings.isASCII c.
Proof.
  destruct c as [[] [] [] [] [] [] [] []]; reflexivity.
Qed.

Lemma mapBytes_lowerByte_isASCII (s : string) :
  GoStrings.allBytes GoStrings.isASCII (GoStrings.mapBytes GoStrings.lowerByte s)
  = GoStrings.allBytes GoStrings.isASCII s.
Proof.
  induction s as [|c s IH]; simpl; [done|].
  by rewrite lowerByte_isASCII, IH.
Qed.

(** A string that equals an ASCII string up to the case of ASCII letters
    is lowered to it by [strings.ToLower], whatever the Unicode branch is. *)
Lemma ToLower_equalFold (lower : string -> string) (s t : string) :
  GoStrings.allBytes GoStrings.isASCII t = true ->
  GoStrings.mapBytes GoStrings.lowerByte t = t ->
  GoStrings.equalFoldASCII s t ->
  GoStrings.ToLower lower s = t.
Proof.
  unfold GoStrings.equalFoldASCII, GoStrings.ToLower. intros Hascii Hlow Heq.
  rewrite Hlow in Heq.
  assert (Hs : GoStrings.allBytes GoStrings.isASCII s = true)
    by (by rewrite <- mapBytes_lowerByte_isASCII, Heq).
  by rewrite Hs.
Qed.

(** *** The reversal loop of [Use] *)

Lemma swapLoop_rev {A : Type} (fuel : nat) :
  forall m p q : list A,
    (length m <= 2 * fuel + 1)%nat ->
    swapLoop fuel (length p) (length p + length m - 1) (p ++ m ++ q)%list
    = (p ++ rev m ++ q)%list.
Proof.
  induction fuel as [|fuel IH]; intros m p q Hlen.
  - destruct m as [|a [|b m]]; simpl in *; [done|done|lia].
  - destruct m as [|a m]; simpl.
    { replace (length p + 0 - 1)%nat with (length p - 1)%nat by lia.
      case_match eqn:Hlt; [apply Nat.ltb_lt in Hlt; lia|done]. }
    destruct (decide (m = [])) as [->|Hne].
    { simpl. replace (length p + 1 - 1)%nat with (length p) by lia.
      by rewrite Nat.ltb_irrefl. }
    destruct (exists_last Hne) as (mid & b & ->).
    simpl in Hlen. rewrite length_app in Hlen. simpl in Hlen.
    simpl. rewrite length_app. simpl.
    replace (length p + S (length mid + 1) - 1)%nat
      with (length p + S (length mid))%nat by lia.
    assert (Hlt : (length p <? length p + S (length mid))%nat = true)
      by (apply Nat.ltb_lt; lia).
    rewrite Hlt.
    assert (Hi : ((p ++ a :: (mid ++ [b]) ++ q)%list !! length p) = Some a)
      by (by apply list_lookup_middle).
    assert (Hj : ((p ++ a :: (mid ++ [b]) ++ q)%list !! (length p + S (length mid))%nat)
                 = Some b).
    { rewrite lookup_app_r by lia.
      replace (length p + S (length mid) - length p)%nat with (S (length mid)) by lia.
      simpl. rewrite <- app_assoc. by apply list_lookup_middle. }
    rewrite Hi, Hj.
    assert (Hins : <[(length p + S (length mid))%nat := a]>
                     (<[length p := b]> (p ++ a :: (mid ++ [b]) ++ q)%list)
                   = ((p ++ [b]) ++ mid ++ a :: q)%list).
    { replace (length p) with (length p + 0)%nat at 2 by lia.
      rewrite insert_app_r. simpl.
      rewrite insert_app_r. simpl.
      rewrite <- (app_assoc mid [b] q). simpl.
      replace (length mid) with (length mid + 0)%nat at 1 by lia.
      rewrite insert_app_r. simpl. by rewrite <- app_assoc. }
    rewrite Hins.
    replace (length p + 1)%nat with (length (p ++ [b])%list)
      by (rewrite length_app; simpl; lia).
    replace (length p + S (length mid) - 1)%nat
      with (length (p ++ [b])%list + length mid - 1)%nat
      by (rewrite length_app; simpl; lia).
    rewrite IH by lia.
    rewrite rev_app_distr. simpl.
    by rewrite <- !app_assoc.
Qed.

(** On the whole list, from both ends, the loop reverses it. *)
Lemma swapLoop_reverses {A : Type} (l : list A) :
  swapLoop (length l) 0 (length l - 1) l = rev l.
Proof.
  pose proof (swapLoop_rev (length l) l [] [] ltac:(lia)) as Hrev.
  rewrite !app_nil_r in Hrev. exact Hrev.
Qed.

Section Properties.

Context {T U : Type} {lib : GoLib} {router : Router U}.

Implicit Types (s : @Server T U) (c : @Cadet T U) (r : http.Request)
  (σ : World U) (h : HandlerFunc U).

(** *** The classifier *)

(** The media type the classifier looks up: the declared content type up
    to the first semicolon, lowered. *)
Lemma contentTypes_lookup (media : string) :
  @contentTypes !! media =
    if String.eqb media "application/json" then Some ContentTypeJSON
    else if String.eqb media "multipart/form-data" then Some ContentTypeMultipart
    else None.
Proof.
  unfold contentTypes.
  destruct (String.eqb_spec media "application/json") as [->|Hj]; [done|].
  rewrite lookup_insert_ne by done.
  destruct (String.eqb_spec media "multipart/form-data") as [->|Hm]; [done|].
  by rewrite lookup_insert_ne, lookup_empty.
Qed.

(** C6: the classifier lowers the declared content type up to its first
    semicolon and returns JSONBody for application/json, Multipart for
    multipart/form-data and Unknown for any other value; any casing of
    the two media types matches, and what follows the first semicolon is
    ignored. Its result is the kind alone. *)
Theorem getContentType_classifies :
  (forall r,
     let media :=
       GoStrings.ToLower unicodeLower
         (GoStrings.before ";" (http.Header_Get (http.Header r) "Content-Type")) in
     getContentType r =
       if String.eqb media "application/json" then ContentTypeJSON
       else if String.eqb media "multipart/form-data" then ContentTypeMultipart
       else ContentTypeUnknown)
  /\ (forall r,
        GoStrings.equalFoldASCII
          (GoStrings.before ";" (http.Header_Get (http.Header r) "Content-Type"))
          "application/json" ->
        getContentType r = ContentTypeJSON)
  /\ (forall r,
        GoStrings.equalFoldASCII
          (GoStrings.before ";" (http.Header_Get (http.Header r) "Content-Type"))
          "multipart/form-data" ->
        getContentType r = ContentTypeMultipart)
  /\ (forall r r' params,
        http.Header_Get (http.Header r') "Content-Type"
        = http.Header_Get (http.Header r) "Content-Type" +:+ ";" +:+ params ->
        getContentType r' = getContentType r)
  /\ (forall r,
        http.Header_Get (http.Header r) "Content-Type"
        = "application/json; charset=utf-8" ->
        getContentType r = ContentTypeJSON)
  /\ (forall r r',
        http.Header_Get (http.Header r') "Content-Type"
        = http.Header_Get (http.Header r) "Content-Type" ->
        getContentType r' = getContentType r).
Proof.
  assert (Hspec : forall r,
     getContentType r =
       let media :=
         GoStrings.ToLower unicodeLower
           (GoStrings.before ";" (http.Header_Get (http.Header r) "Content-Type")) in
       if String.eqb media "application/json" then ContentTypeJSON
       else if String.eqb media "multipart/form-data" then ContentTypeMultipart
       else ContentTypeUnknown).
  { intros r. unfold getContentType. rewrite Split_hd, contentTypes_lookup. simpl.
    repeat case_match; congruence. }
  split; [exact Hspec|].
  split; [|split; [|split; [|split]]].
  - intros r Hfold. rewrite Hspec. simpl.
    by rewrite (ToLower_equalFold _ _ "application/json").
  - intros r Hfold. rewrite Hspec. simpl.
    by rewrite (ToLower_equalFold _ _ "multipart/form-data").
  - intros r r' params Hdecl. rewrite !Hspec, Hdecl.
    change (";" +:+ params) with (String ";" params).
    by rewrite before_append.
  - intros r Hdecl. rewrite Hspec, Hdecl. reflexivity.
  - intros r r' Hdecl. by rewrite !Hspec, Hdecl.
Qed.

(** *** The response writer *)

Lemma WriteHeader_status (code : Z) (w : http.ResponseWriter) :
  http.status w = None ->
  http.StatusCode (http.WriteHeader code w) = code
  /\ http.sent (http.WriteHeader code w) = http.header w.
Proof. unfold http.StatusCode, http.WriteHeader. by intros ->. Qed.

(** *** The dispatcher *)

Lemma executeHandler_unknown s r σ :
  getContentType r = ContentTypeUnknown ->
  executeHandler s r σ
  = onWriter (http.WriteHeader http.StatusUnsupportedMediaType) σ.
Proof. unfold executeHandler. by intros ->. Qed.

Lemma executeHandler_not_post s r σ :
  getContentType r <> ContentTypeUnknown ->
  http.Method r <> "POST" ->
  executeHandler s r σ
  = onWriter (http.WriteHeader http.StatusMethodNotAllowed)
      (onWriter (http.AddHeader "Allow" "POST") σ).
Proof.
  unfold executeHandler. intros Hct Hm.
  apply String.eqb_neq in Hm. rewrite Hm. simpl.
  by destruct (getContentType r).
Qed.

(** Past the two checks the dispatcher is the decoding, the lookup and
    the call. *)
Lemma executeHandler_post s r σ :
  getContentType r <> ContentTypeUnknown ->
  http.Method r = "POST" ->
  executeHandler s r σ =
    match getHandler s r (getContentType r) with
    | (_, _, Some err) =>
        onWriter (http.WriteHeader http.StatusUnprocessableEntity) σ
    | (None, _, None) =>
        onWriter (http.WriteHeader http.StatusNotFound) σ
    | (Some handler, command, None) =>
        let '(σ, responder) :=
          handler {| command := default {| Name := ""; Data := "" |} command;
                     RawRequest := r |} (context s) σ in
        match responder with
        | Some responder => responder σ
        | None => σ
        end
    end.
Proof.
  unfold executeHandler. intros Hct Hm.
  apply String.eqb_eq in Hm. rewrite Hm. simpl.
  by destruct (getContentType r).
Qed.

(** C1: the dispatcher checks the content kind, then the method: a
    request of unknown kind gets 415 whatever its method and body, a
    request of a recognised kind that is not a POST gets 405 and the
    header Allow: POST, and in both cases neither the body, nor the form,
    nor the JSON decoder has any part in the response. *)
Theorem executeHandler_kind_then_method s r σ :
  (getContentType r = ContentTypeUnknown ->
     executeHandler s r σ
     = onWriter (http.WriteHeader http.StatusUnsupportedMediaType) σ
     /\ (http.status (resp σ) = None ->
         http.StatusCode (resp (executeHandler s r σ))
         = http.StatusUnsupportedMediaType))
  /\ (getContentType r <> ContentTypeUnknown -> http.Method r <> "POST" ->
     executeHandler s r σ
     = onWriter (http.WriteHeader http.StatusMethodNotAllowed)
         (onWriter (http.AddHeader "Allow" "POST") σ)
     /\ (http.status (resp σ) = None ->
         http.StatusCode (resp (executeHandler s r σ))
         = http.StatusMethodNotAllowed
         /\ http.sent (resp (executeHandler s r σ)) !! "Allow"
            = Some (default [] (http.header (resp σ) !! "Allow") ++ ["POST"])%list))
  /\ (getContentType r = ContentTypeUnknown \/ http.Method r <> "POST" ->
      forall body form json,
        executeHandler (lib := withDecoder json) s (withPayload r body form) σ
        = executeHandler s r σ).
Proof.
  split; [|split].
  - intros Hct. rewrite executeHandler_unknown by done. split; [done|].
    intros Hfresh. simpl. by apply WriteHeader_status.
  - intros Hct Hm. rewrite executeHandler_not_post by done. split; [done|].
    intros Hfresh. simpl.
    destruct (WriteHeader_status http.StatusMethodNotAllowed
                (http.AddHeader "Allow" "POST" (resp σ)) Hfresh) as [-> ->].
    split; [done|]. simpl. unfold http.Header_Add. by rewrite lookup_insert_eq.
  - intros Hor body form json.
    assert (Hct : getContentType (lib := withDecoder json) (withPayload r body form)
                  = getContentType r) by done.
    destruct (getContentType r) eqn:Hk.
    2,3: destruct Hor as [|Hm]; [done|];
         rewrite (executeHandler_not_post s r) by (first [done | by rewrite Hk]);
         unfold executeHandler; rewrite Hct; simpl;
         apply String.eqb_neq in Hm; by rewrite Hm.
    rewrite (executeHandler_unknown s r) by done.
    unfold executeHandler. by rewrite Hct.
Qed.

Lemma getHandler_decode_error s r (kind : ContentType) (err : http.error) :
  envelopeData r kind = inl err
  \/ (exists data, envelopeData r kind = inr data /\ json_Unmarshal data = inl err) ->
  getHandler s r kind = (None, None, Some err).
Proof.
  unfold getHandler. intros [-> | (data & -> & ->)]; done.
Qed.


Lemma FormValue_absent r (key : string) :
  http.Form r !! key = None -> http.FormValue r key = "".
Proof. unfold http.FormValue. by intros ->. Qed.

(** C5: on a POST of a recognised kind, a body that cannot be read,
    bytes that do not decode as an envelope, and a multipart form whose
    field command is absent or empty all give the one response 422. *)
Theorem decode_failure_unprocessable s r σ :
  http.Method r = "POST" ->
  (getContentType r = ContentTypeJSON /\
     ((exists err, http.Body r = inl err)
      \/ (exists data err, http.Body r = inr data /\ json_Unmarshal data = inl err)))
  \/ (getContentType r = ContentTypeMultipart /\
     (http.Form r !! "command" = None
      \/ http.FormValue r "command" = ""
      \/ (exists err, json_Unmarshal (http.FormValue r "command") = inl err))) ->
  executeHandler s r σ
  = onWriter (http.WriteHeader http.StatusUnprocessableEntity) σ
  /\ (http.status (resp σ) = None ->
      http.StatusCode (resp (executeHandler s r σ))
      = http.StatusUnprocessableEntity).
Proof.
  intros Hm Hfail.
  assert (Hget : exists err, getHandler s r (getContentType r) = (None, None, Some err)).
  { destruct Hfail as [[Hk Hfail] | [Hk Hfail]]; rewrite Hk.
    - destruct Hfail as [[err Hb] | (data & err & Hb & Hj)]; exists err;
        apply getHandler_decode_error; simpl; eauto.
    - destruct Hfail as [Habs | [Hempty | [err Hj]]].
      + apply FormValue_absent in Habs. eexists.
        apply getHandler_decode_error. left. simpl. by rewrite Habs.
      + eexists. apply getHandler_decode_error. left. simpl. by rewrite Hempty.
      + destruct (String.eqb_spec (http.FormValue r "command") "") as [Hempty|Hne].
        * eexists. apply getHandler_decode_error. left. simpl. by rewrite Hempty.
        * exists err. apply getHandler_decode_error. right. simpl.
          apply String.eqb_neq in Hne. rewrite Hne. eauto. }
  destruct Hget as [err Hget].
  assert (Hk : getContentType r <> ContentTypeUnknown)
    by (destruct Hfail as [[-> _] | [-> _]]; done).
  rewrite executeHandler_post, Hget by done.
  split; [done|]. intros Hfresh. simpl. by apply WriteHeader_status.
Qed.

(** C7: a POST of a recognised kind whose envelope decodes and names a
    command that the registry maps to no handler gets 404; serving the
    request leaves the registry as it was; and the response is the one
    the strict-path guard gives when it rejects. *)
Theorem unknown_command_not_found s r σ (data : string) (command : Command) :
  getContentType r <> ContentTypeUnknown ->
  http.Method r = "POST" ->
  envelopeData r (getContentType r) = inr data ->
  json_Unmarshal data = inr command ->
  default None (handlers s !! Name command) = None ->
  executeHandler s r σ = onWriter (http.WriteHeader http.StatusNotFound) σ
  /\ (http.status (resp σ) = None ->
      http.StatusCode (resp (executeHandler s r σ)) = http.StatusNotFound)
  /\ (forall c u,
        handlers (server (fst (fst (step (c, u) (OpServeHTTP r)))))
        = handlers (server c)
        /\ handlers (server (fst (fst (step (c, u) (OpHandler r)))))
           = handlers (server c))
  /\ (forall s' r' h,
        standalone s' = true -> path s' = "/" -> http.URL_Path r' <> "/" ->
        withStrictPath s' h r' σ = executeHandler s r σ).
Proof.
  intros Hk Hm Hdata Hjson Hnone.
  assert (Hexec : executeHandler s r σ
                  = onWriter (http.WriteHeader http.StatusNotFound) σ).
  { rewrite executeHandler_post by done.
    unfold getHandler. by rewrite Hdata, Hjson, Hnone. }
  rewrite Hexec. split; [done|]. split; [|split].
  - intros Hfresh. simpl. by apply WriteHeader_status.
  - intros c u. split; reflexivity.
  - intros s' r' h Hmode Hpath Hurl. unfold withStrictPath, standalone in *.
    apply String.eqb_eq in Hpath. apply String.eqb_neq in Hurl.
    by rewrite Hmode, Hpath, Hurl.
Qed.

(** C8: a POST whose envelope, the body of a JSON request or the
    non-empty form field command of a multipart request, decodes and
    names a command registered with the handler [handler] runs that
    handler once, on a request holding the decoded envelope (so that
    [ReadCommand] decodes the bytes of its data field) and on the
    context of the server; without a response directive the result is
    what the handler left, with one it is the directive applied once to
    what the handler left. *)
Theorem registered_command_dispatch s r σ (data : string) (command : Command)
    (handler : CommandHandler) :
  http.Method r = "POST" ->
  (getContentType r = ContentTypeJSON /\ http.Body r = inr data)
  \/ (getContentType r = ContentTypeMultipart
      /\ http.FormValue r "command" = data /\ data <> "") ->
  json_Unmarshal data = inr command ->
  handlers s !! Name command = Some (Some handler) ->
  let request := {| command := command; RawRequest := r |} in
  let after := fst (handler request (context s) σ) in
  (forall (A : Type) (unmarshal : string -> http.error + A),
     ReadCommand unmarshal request = unmarshal (Data command))
  /\ (snd (handler request (context s) σ) = None ->
      executeHandler s r σ = after)
  /\ (forall responder,
        snd (handler request (context s) σ) = Some responder ->
        executeHandler s r σ = responder after)
  /\ executeHandler s r σ = invoke handler s command r σ.
Proof.
  intros Hm Hbytes Hjson Hreg request after.
  assert (Hk : getContentType r <> ContentTypeUnknown)
    by (destruct Hbytes as [[-> _] | [-> _]]; done).
  assert (Hdata : envelopeData r (getContentType r) = inr data).
  { destruct Hbytes as [[-> Hbody] | (-> & Hform & Hne)]; simpl; [done|].
    rewrite Hform. apply String.eqb_neq in Hne. by rewrite Hne. }
  assert (Hexec : executeHandler s r σ =
            let '(σ', responder) := handler request (context s) σ in
            match responder with
            | Some responder => responder σ'
            | None => σ'
            end).
  { rewrite executeHandler_post by done.
    unfold getHandler. by rewrite Hdata, Hjson, Hreg. }
  split; [done|].
  split; [|split; [|exact Hexec]].
  - subst after. rewrite Hexec.
    destruct (handler request (context s) σ) as [σ' responder]; simpl.
    by intros ->.
  - subst after. rewrite Hexec.
    destruct (handler request (context s) σ) as [σ' responder]; simpl.
    by intros responder' ->.
Qed.

End Properties.

(** *** The middleware chain and the strict-path guard *)

Section Chain.

Context {T U : Type} {lib : GoLib} {router : Router U}.

Implicit Types (s : @Server T U) (c : @Cadet T U) (r : http.Request)
  (σ : World U) (h : HandlerFunc U).

(** The handler [Use] builds is the guard around the middleware, nested
    first to last, around the dispatcher. *)
Lemma chain_nest (middleware : list (Middleware U)) s :
  chain middleware s = withStrictPath s (nest middleware (executeHandler s)).
Proof.
  unfold chain. cbv zeta. rewrite swapLoop_reverses.
  rewrite <- (fold_left_rev_right (fun (mw : Middleware U) h => mw h)).
  by rewrite rev_involutive.
Qed.

Lemma nest_around (ms : list ((World U -> World U) * (World U -> World U)))
    h r σ :
  nest (map (fun m => around (fst m) (snd m)) ms) h r σ
  = wayOut ms (h r (wayIn ms σ)).
Proof.
  revert σ. induction ms as [|[pre post] ms IH]; intros σ; simpl; [done|].
  unfold around at 1. by rewrite IH.
Qed.

(** The test of the guard. *)
Lemma withStrictPath_test s r :
  negb (strictMode s) && String.eqb (path s) "/"
    && negb (String.eqb (http.URL_Path r) "/") = true
  <-> standalone s = true /\ path s = "/" /\ http.URL_Path r <> "/".
Proof.
  unfold standalone.
  rewrite !andb_true_iff, !negb_true_iff, String.eqb_eq, String.eqb_neq.
  tauto.
Qed.

Lemma withStrictPath_reject s h r σ :
  standalone s = true -> path s = "/" -> http.URL_Path r <> "/" ->
  withStrictPath s h r σ = onWriter (http.WriteHeader http.StatusNotFound) σ.
Proof.
  intros Hmode Hpath Hurl. unfold withStrictPath.
  by rewrite (proj2 (withStrictPath_test s r)).
Qed.

Lemma withStrictPath_forward s h r σ :
  ~ (standalone s = true /\ path s = "/" /\ http.URL_Path r <> "/") ->
  withStrictPath s h r σ = h r σ.
Proof.
  intros Hnot. unfold withStrictPath.
  destruct (negb (strictMode s) && String.eqb (path s) "/"
            && negb (String.eqb (http.URL_Path r) "/")) eqn:Htest; [|done].
  by apply withStrictPath_test in Htest.
Qed.

(** Adding a header is never the writing of a status. *)
Lemma AddHeader_not_WriteHeader (key value : string) (code : Z)
    (w : http.ResponseWriter) :
  http.AddHeader key value w <> http.WriteHeader code w.
Proof.
  intros Heq.
  assert (Hh : http.header (http.AddHeader key value w) !! key
               = http.header (http.WriteHeader code w) !! key) by by rewrite Heq.
  assert (Hw : http.header (http.WriteHeader code w) = http.header w)
    by (unfold http.WriteHeader; by destruct (http.status w)).
  rewrite Hw in Hh. simpl in Hh. unfold http.Header_Add in Hh.
  rewrite lookup_insert_eq in Hh.
  destruct (http.header w !! key) as [vs|]; [|done]. simpl in Hh.
  assert (Hlen : length (vs ++ [value])%list = length vs) by congruence.
  rewrite length_app in Hlen. simpl in Hlen. lia.
Qed.

End Chain.

Section Guard.

Context {T U : Type} {lib : GoLib} {router : Router U}.

Implicit Types (s : @Server T U) (c : @Cadet T U) (r : http.Request)
  (σ : World U) (h : HandlerFunc U).

(** C4: the handler installed by [Use] on the middleware [A; B; C] is the
    strict-path guard around A around B around C around the dispatcher,
    so that the logic before the inner call runs in the order A, B, C
    and the logic after it in the order C, B, A; the handler installed
    by [NewServer], when [Use] is never called, is the guard around the
    dispatcher. *)
Theorem Use_nests_first_outermost c (middleware : list (Middleware U)) s :
  registered (Handler (Use c middleware)) s
  = withStrictPath s (nest middleware (executeHandler s))
  /\ (forall A B C : Middleware U,
        registered (Handler (Use c [A; B; C])) s
        = withStrictPath s (A (B (C (executeHandler s)))))
  /\ (forall preA postA preB postB preC postC h r σ,
        nest [around preA postA; around preB postB; around preC postC] h r σ
        = postA (postB (postC (h r (preC (preB (preA σ)))))))
  /\ (forall ms h r σ,
        nest (map (fun m => around (fst m) (snd m)) ms) h r σ
        = wayOut ms (h r (wayIn ms σ)))
  /\ (forall config context,
        registered (Handler (snd (NewServer config context))) s
        = withStrictPath s (executeHandler s))
  /\ registered (Handler (Use c [])) s = withStrictPath s (executeHandler s).
Proof.
  split; [apply chain_nest|].
  split; [intros A B C; apply (chain_nest [A; B; C])|].
  split; [done|].
  split; [apply nest_around|].
  split; [done|]. apply (chain_nest []).
Qed.

(** C3, as the code has it: the guard answers 404 without running the
    inner handler exactly when the mode flag [strictMode] is unset, the
    command path is "/" and the path of the request is not "/";
    otherwise it runs the inner handler. A rejected request is answered
    before any decoding, whatever middleware is installed. The flag is
    unset in a new server and set by [ServeHTTP], the entry of a server
    mounted in a router, before the request is routed: the guard rejects
    nothing that comes through [ServeHTTP], and from then on nothing that
    comes through the server's own listener either. *)
Theorem withStrictPath_rejects_iff s r σ :
  ((forall h, withStrictPath s h r σ
              = onWriter (http.WriteHeader http.StatusNotFound) σ)
   <-> strictMode s = false /\ path s = "/" /\ http.URL_Path r <> "/")
  /\ (~ (strictMode s = false /\ path s = "/" /\ http.URL_Path r <> "/") ->
      forall h, withStrictPath s h r σ = h r σ)
  /\ (strictMode s = false /\ path s = "/" /\ http.URL_Path r <> "/" ->
      (http.status (resp σ) = None ->
       forall h, http.StatusCode (resp (withStrictPath s h r σ))
                 = http.StatusNotFound)
      /\ forall middleware body form json,
           chain (lib := withDecoder json) middleware s (withPayload r body form) σ
           = onWriter (http.WriteHeader http.StatusNotFound) σ)
  /\ (forall (config : Config) (context' : T),
        strictMode (server (snd (NewServer (U := U) config context'))) = false)
  /\ (forall c,
        let c' := fst (ServeHTTP c r σ) in
        strictMode (server c') = true
        /\ snd (ServeHTTP c r σ) = ServeMux_ServeHTTP (Handler c) (server c') r σ
        /\ (forall h r' σ', withStrictPath (server c') h r' σ' = h r' σ')
        /\ (forall middleware r' σ',
              chain middleware (server c') r' σ'
              = nest middleware (executeHandler (server c')) r' σ')
        /\ (forall r' u,
              listenerServe c' r' u
              = ServeMux_ServeHTTP (Handler c) (server c') r'
                  {| resp := http.newResponseWriter; user := u |})).
Proof.
  assert (Hflag : strictMode s = false <-> standalone s = true)
    by (unfold standalone; by destruct (strictMode s)).
  split; [|split; [|split; [|split]]].
  - rewrite Hflag. split.
    + intros Hall.
      destruct (negb (strictMode s) && String.eqb (path s) "/"
                && negb (String.eqb (http.URL_Path r) "/")) eqn:Htest;
        [by apply withStrictPath_test|].
      specialize (Hall (fun _ => onWriter (http.AddHeader "X-Probe" "1"))).
      unfold withStrictPath in Hall. rewrite Htest in Hall.
      exfalso.
      apply (AddHeader_not_WriteHeader "X-Probe" "1" http.StatusNotFound (resp σ)).
      unfold onWriter in Hall. congruence.
    + intros (Hmode & Hpath & Hurl) h. by apply withStrictPath_reject.
  - rewrite Hflag. intros Hnot h. by apply withStrictPath_forward.
  - rewrite Hflag. intros (Hmode & Hpath & Hurl). split.
    + intros Hfresh h. rewrite withStrictPath_reject by done.
      simpl. by apply WriteHeader_status.
    + intros middleware body form json.
      rewrite (chain_nest (lib := withDecoder json)).
      by apply withStrictPath_reject.
  - done.
  - intros c c'. split; [done|]. split; [done|]. split; [|split; [|done]].
    + intros h r' σ'. apply withStrictPath_forward. by intros [? _].
    + intros middleware r' σ'. rewrite chain_nest.
      apply withStrictPath_forward. by intros [? _].
Qed.

End Guard.

(** *** Bulk registration *)

Section Registration.

Context {T U : Type}.

Implicit Types (s : @Server T U) (c : @Cadet T U)
  (args rest : list (any (@CommandHandler T U)))
  (pairs : list (string * option (@CommandHandler T U))).

Lemma mod2_SS (i : nat) : (S (S i) mod 2 = i mod 2)%nat.
Proof.
  replace (S (S i)) with (i + 1 * 2)%nat by lia. apply Nat.Div0.mod_add.
Qed.

Lemma mod2_S (i : nat) : (i mod 2 = 0 -> S i mod 2 = 1)%nat.
Proof.
  intros Hi.
  pose proof (Nat.div_mod_eq i 2). pose proof (Nat.div_mod_eq (S i) 2).
  pose proof (Nat.mod_upper_bound (S i) 2). lia.
Qed.

Lemma length_pairArgs pairs : length (pairArgs pairs) = (2 * length pairs)%nat.
Proof. induction pairs as [|p pairs IH]; simpl; lia. Qed.

(** The loop on a well-formed pair, at an even index: the pair is
    registered and the loop goes on two arguments further. *)
Lemma Commands_loop_pair (i : nat) (name current : string)
    (handler : option CommandHandler) rest s :
  (i mod 2 = 0)%nat ->
  Commands_loop i (any_string name :: any_handler handler :: rest) current s
  = Commands_loop (S (S i)) rest "" (Server_Command s name handler).
Proof.
  intros Hi. cbn [Commands_loop]. rewrite Hi, (mod2_S i Hi). reflexivity.
Qed.

Lemma Commands_loop_pairs pairs :
  forall (i : nat) (current : string) rest s,
    (i mod 2 = 0)%nat ->
    exists (j : nat) (current' : string),
      (j mod 2 = 0)%nat
      /\ Commands_loop i (pairArgs pairs ++ rest) current s
         = Commands_loop j rest current' (registerPairs s pairs).
Proof.
  induction pairs as [|[name handler] pairs IH]; intros i current rest s Hi.
  - by exists i, current.
  - change (pairArgs ((name, handler) :: pairs) ++ rest)
      with (any_string name :: any_handler handler :: (pairArgs pairs ++ rest)).
    rewrite Commands_loop_pair by done.
    apply IH. by rewrite mod2_SS.
Qed.

(** The loop at an even index on an argument that is not a string. *)
Lemma Commands_loop_bad_name (i : nat) (current : string)
    (arg : any CommandHandler) rest s :
  (i mod 2 = 0)%nat ->
  (forall name, arg <> any_string name) ->
  Commands_loop i (arg :: rest) current s
  = (s, Some "even arg must be command name").
Proof.
  intros Hi Hbad. cbn [Commands_loop]. rewrite Hi. simpl.
  destruct arg as [name| |]; [by destruct (Hbad name)|done|done].
Qed.

(** The loop at an even index on a name followed by an argument that is
    not a handler. *)
Lemma Commands_loop_bad_handler (i : nat) (name current : string)
    (arg : any CommandHandler) rest s :
  (i mod 2 = 0)%nat ->
  (forall handler, arg <> any_handler handler) ->
  Commands_loop i (any_string name :: arg :: rest) current s
  = (s, Some "odd arg must be command handler").
Proof.
  intros Hi Hbad. cbn [Commands_loop]. rewrite Hi, (mod2_S i Hi). simpl.
  destruct arg as [|handler|]; [done|by destruct (Hbad handler)|done].
Qed.

(** C2, as the code has it: [Commands] fails on an empty or odd argument
    list before it looks at any argument, so that nothing is registered,
    and ("cmd1", handlerA, "cmd2") leaves cmd1 unregistered. On a list of
    non-zero even length it registers the pairs in order and fails at
    the first pair whose first argument is not a string or whose second
    is not a handler: it stops there, and the pairs before it, and only
    they, are registered. *)
Theorem Commands_contract c :
  (forall args,
     length args = 0%nat \/ (length args mod 2)%nat <> 0%nat ->
     Commands c args
     = (c, Some "args must be pairs of command names and handlers"))
  /\ (forall (handlerA : option CommandHandler),
        Commands c [any_string "cmd1"; any_handler handlerA; any_string "cmd2"]
        = (c, Some "args must be pairs of command names and handlers"))
  /\ (forall pairs (arg1 arg2 : any CommandHandler) rest,
        (length rest mod 2 = 0)%nat ->
        (forall name, arg1 <> any_string name) ->
        Commands c (pairArgs pairs ++ arg1 :: arg2 :: rest)
        = (withServer c (registerPairs (server c) pairs),
           Some "even arg must be command name"))
  /\ (forall pairs (name : string) (arg2 : any CommandHandler) rest,
        (length rest mod 2 = 0)%nat ->
        (forall handler, arg2 <> any_handler handler) ->
        Commands c (pairArgs pairs ++ any_string name :: arg2 :: rest)
        = (withServer c (registerPairs (server c) pairs),
           Some "odd arg must be command handler"))
  /\ (forall pairs,
        pairs <> [] ->
        Commands c (pairArgs pairs)
        = (withServer c (registerPairs (server c) pairs), None)).
Proof.
  assert (Hguard : forall args,
    length args <> 0%nat -> (length args mod 2 = 0)%nat ->
    Commands c args
    = (let '(s, err) := Commands_loop 0 args "" (server c) in (withServer c s, err))).
  { intros args Hne Heven. unfold Commands.
    apply Nat.eqb_neq in Hne. apply Nat.eqb_eq in Heven.
    by rewrite Hne, Heven. }
  assert (Hlen : forall pairs (a b : any CommandHandler) rest,
    (length rest mod 2 = 0)%nat ->
    length (pairArgs pairs ++ a :: b :: rest) <> 0%nat
    /\ (length (pairArgs pairs ++ a :: b :: rest) mod 2 = 0)%nat).
  { intros pairs a b rest Hrest. rewrite length_app, length_pairArgs.
    cbn [length]. split; [lia|].
    replace (2 * length pairs + S (S (length rest)))%nat
      with (length rest + (length pairs + 1) * 2)%nat by lia.
    by rewrite Nat.Div0.mod_add. }
  split; [|split; [|split; [|split]]].
  - intros args Hbad. unfold Commands.
    destruct Hbad as [->|Hodd]; [done|].
    apply Nat.eqb_neq in Hodd. rewrite Hodd. simpl.
    by rewrite orb_true_r.
  - done.
  - intros pairs arg1 arg2 rest Hrest Hbad.
    destruct (Hlen pairs arg1 arg2 rest Hrest) as [Hne Heven].
    rewrite Hguard by done.
    destruct (Commands_loop_pairs pairs 0 "" (arg1 :: arg2 :: rest) (server c))
      as (j & current & Hj & ->); [done|].
    by rewrite Commands_loop_bad_name.
  - intros pairs name arg2 rest Hrest Hbad.
    destruct (Hlen pairs (any_string name) arg2 rest Hrest) as [Hne Heven].
    rewrite Hguard by done.
    destruct (Commands_loop_pairs pairs 0 "" (any_string name :: arg2 :: rest)
                (server c)) as (j & current & Hj & ->); [done|].
    by rewrite Commands_loop_bad_handler.
  - intros pairs Hne.
    rewrite Hguard.
    + destruct (Commands_loop_pairs pairs 0 "" [] (server c))
        as (j & current & Hj & Hloop); [done|].
      rewrite app_nil_r in Hloop. by rewrite Hloop.
    + rewrite length_pairArgs. destruct pairs; [done|simpl; lia].
    + rewrite length_pairArgs.
      replace (2 * length pairs)%nat with (0 + length pairs * 2)%nat by lia.
      by rewrite Nat.Div0.mod_add.
Qed.

End Registration.

(** *** Construction and the mode flag *)

Section Lifecycle.

Context {T U : Type} {lib : GoLib} {router : Router U}.

Implicit Types (s : @Server T U) (c : @Cadet T U) (r : http.Request)
  (σ : World U) (h : HandlerFunc U) (u : U).

(** C10: [NewServer] writes the normalised path back into the caller's
    [Config]: a path that does not begin with "/" is replaced by "/"
    followed by it; afterwards the path of the [Config] begins with "/"
    and is the command path of the server, which is also the pattern
    registered in the mux, and [Bind] is as it was. *)
Theorem NewServer_normalises_config (config : Config) (context : T) :
  let config' := fst (NewServer (U := U) config context) in
  let c := snd (NewServer (U := U) config context) in
  (GoStrings.HasPrefix (Path config) "/" = false ->
   Path config' = "/" +:+ Path config)
  /\ (GoStrings.HasPrefix (Path config) "/" = true -> config' = config)
  /\ GoStrings.HasPrefix (Path config') "/" = true
  /\ Path config' = path (server c)
  /\ pattern (Handler c) = path (server c)
  /\ Bind config' = Bind config
  /\ Addr (httpServer c) = Bind config.
Proof.
  unfold NewServer. simpl.
  destruct (GoStrings.HasPrefix (Path config) "/") eqn:Hprefix; simpl;
    repeat split; try done.
  unfold GoStrings.HasPrefix. simpl. by destruct (Path config).
Qed.

Lemma Commands_loop_strictMode (args : list (any CommandHandler)) :
  forall (i : nat) (current : string) s,
    strictMode (fst (Commands_loop i args current s)) = strictMode s.
Proof.
  induction args as [|arg args IH]; intros i current s; [done|].
  cbn [Commands_loop].
  destruct (Nat.eqb (i mod 2) 0); simpl.
  - destruct arg; simpl; [apply IH|done|done].
  - destruct arg; simpl; [done| |done].
    by rewrite IH.
Qed.

Lemma Commands_strictMode c (args : list (any CommandHandler)) :
  strictMode (server (fst (Commands c args))) = strictMode (server c).
Proof.
  unfold Commands. case_match; [done|].
  pose proof (Commands_loop_strictMode args 0 "" (server c)) as Hloop.
  by destruct (Commands_loop 0 args "" (server c)).
Qed.

(** Of all operations only [ServeHTTP] writes the flag, and it sets it. *)
Lemma step_strictMode c u (op : Op) :
  strictMode (server (fst (fst (step (c, u) op))))
  = match op with
    | OpServeHTTP _ => true
    | _ => strictMode (server c)
    end.
Proof.
  destruct op; simpl; try done.
  - apply Commands_strictMode.
  - by destruct (Start c accepted u).
Qed.

Lemma run_strictMode (ops : list Op) :
  forall c u,
    strictMode (server c) = true ->
    strictMode (server (fst (fst (run (c, u) ops)))) = true.
Proof.
  induction ops as [|op ops IH]; intros c u Hset; [done|].
  cbn [run].
  pose proof (step_strictMode c u op) as Hstep.
  destruct (step (c, u) op) as [[c' u'] ws]. simpl in Hstep.
  specialize (IH c' u').
  destruct (run (c', u') ops) as [[c'' u''] ws']. simpl in *.
  apply IH. rewrite Hstep. by destruct op.
Qed.

(** C9, as the code has it: the flag the guard reads, [strictMode], is
    false in a new server, which is standalone mode; [ServeHTTP], the
    entry of a server mounted in a router, sets it at each call, which
    ends standalone mode; no other operation writes it, [Start]
    included; once set it stays set through any sequence of operations;
    and at each request the guard decides on the value the flag has
    then. *)
Theorem strictMode_one_way :
  (forall (config : Config) (context : T),
     strictMode (server (snd (NewServer (U := U) config context))) = false)
  /\ (forall c r σ, strictMode (server (fst (ServeHTTP c r σ))) = true)
  /\ (forall c u (op : Op),
        (forall r, op <> OpServeHTTP r) ->
        strictMode (server (fst (fst (step (c, u) op)))) = strictMode (server c))
  /\ (forall c u (ops : list Op),
        strictMode (server c) = true ->
        strictMode (server (fst (fst (run (c, u) ops)))) = true)
  /\ (forall s h r σ,
        path s = "/" -> http.URL_Path r <> "/" ->
        withStrictPath s h r σ
        = if strictMode s then h r σ
          else onWriter (http.WriteHeader http.StatusNotFound) σ).
Proof.
  split; [|split; [|split; [|split]]].
  - intros config context. unfold NewServer. simpl. done.
  - done.
  - intros c u op Hop. rewrite step_strictMode.
    destruct op; try done. by destruct (Hop r).
  - intros c u ops. apply run_strictMode.
  - intros s h r σ Hpath Hurl. unfold withStrictPath.
    apply String.eqb_eq in Hpath. apply String.eqb_neq in Hurl.
    rewrite Hpath, Hurl. by destruct (strictMode s).
Qed.

End Lifecycle.

(** ** The scenarios of cadet_test.go *)

Import Fixture.

(** TestInvalidContentType, on a GET, and TestInvalidMethod. *)
Lemma executeHandler_kind_then_method_witness :
  let s := server (newServer "" "") in
  http.StatusCode
    (resp (executeHandler s (request "GET" "/" "application/fake" (envelope "cmd")) fresh))
  = http.StatusUnsupportedMediaType
  /\ http.StatusCode
       (resp (executeHandler s (request "GET" "/" "application/json" (envelope "cmd")) fresh))
     = http.StatusMethodNotAllowed.
Proof.
  intros s. split.
  - apply (executeHandler_kind_then_method s
             (request "GET" "/" "application/fake" (envelope "cmd")) fresh);
      reflexivity.
  - apply (executeHandler_kind_then_method s
             (request "GET" "/" "application/json" (envelope "cmd")) fresh);
      [vm_compute; discriminate | vm_compute; discriminate | reflexivity].
Defined.

(** TestAddCommands: a pair, then a name with a string where the handler
    should be; the first pair stays registered. *)
Lemma Commands_contract_witness :
  let c := newServer "/" "" in
  Commands c [any_string "cmd1"; any_handler (Some (statusHandler http.StatusOK));
              any_string "cmd"; any_string "handler"]
  = (Cadet_Command c "cmd1" (Some (statusHandler http.StatusOK)),
     Some "odd arg must be command handler").
Proof.
  intros c.
  apply (Commands_contract c
         : _ /\ _ /\ _ /\ (forall pairs name arg2 rest, _) /\ _)
    with (pairs := [("cmd1", Some (statusHandler http.StatusOK))]) (rest := []);
    [reflexivity | discriminate].
Defined.

(** TestAddCommands: ("cmd1", handler, "cmd2") fails and cmd1 is not
    registered. *)
Lemma Commands_odd_registers_nothing :
  let c := newServer "/" "" in
  let result :=
    Commands c [any_string "cmd1"; any_handler (Some (statusHandler http.StatusOK));
                any_string "cmd2"] in
  snd result = Some "args must be pairs of command names and handlers"
  /\ handlers (server (fst result)) !! "cmd1" = None.
Proof. split; reflexivity. Qed.

(** TestStrictPath, and TestMounting for the same server behind [ServeHTTP]. *)
Lemma withStrictPath_rejects_iff_witness :
  let c := Cadet_Command (newServer "/" "") "strict" (Some (statusHandler http.StatusOK)) in
  let r := request "POST" "/strict" "application/json" (envelope "strict") in
  registered (Handler c) (server c) r fresh
  = onWriter (http.WriteHeader http.StatusNotFound) fresh
  /\ strictMode (server (fst (ServeHTTP c r fresh))) = true.
Proof.
  intros c r. split.
  - apply (withStrictPath_rejects_iff (server c) r fresh). by repeat split.
  - apply (withStrictPath_rejects_iff (server c) r fresh).
Defined.

(** A server at "/" that has been mounted once: its own listener, which
    rejected POST /strict before, now hands it to the handler. *)
Lemma own_listener_forwards_once_mounted :
  let c := Cadet_Command (newServer "/" "") "cmd" (Some (statusHandler http.StatusOK)) in
  let r := request "POST" "/strict" "application/json" (envelope "cmd") in
  let c' := fst (ServeHTTP c r fresh) in
  path (server c') = "/" /\ http.URL_Path r <> "/"
  /\ map http.StatusCode (fst (Start c [r] [])) = [http.StatusNotFound]
  /\ map http.StatusCode (fst (Start c' [r] [])) = [http.StatusOK].
Proof. vm_compute. by repeat split. Qed.

(** TestMiddlewareOrder, and three middleware that also act on the way
    out. *)
Lemma Use_nests_first_outermost_witness :
  let c := Cadet_Command (newServer "/" "") "cmd" (Some loggingHandler) in
  let r := request "POST" "/" "application/json" (envelope "cmd") in
  let c1 := Use c [orderMiddleware "1"; orderMiddleware "2"; orderMiddleware "3"] in
  let c2 := Use c [around (note "A") (note "A'"); around (note "B") (note "B'");
                   around (note "C") (note "C'")] in
  user (registered (Handler c1) (server c1) r fresh) = ["1"; "2"; "3"; "handler(,)"]
  /\ user (registered (Handler c2) (server c2) r fresh)
     = ["A"; "B"; "C"; "handler(,)"; "C'"; "B'"; "A'"].
Proof.
  intros c r c1 c2. split.
  - destruct (Use_nests_first_outermost c
                [orderMiddleware "1"; orderMiddleware "2"; orderMiddleware "3"]
                (server c1)) as [Hchain _].
    subst c1. rewrite Hchain. reflexivity.
  - destruct (Use_nests_first_outermost c
                [around (note "A") (note "A'"); around (note "B") (note "B'");
                 around (note "C") (note "C'")] (server c2)) as [Hchain _].
    subst c2. rewrite Hchain. reflexivity.
Defined.

(** TestInvalidJSON, TestEmptyMultipart and a form without the field. *)
Lemma decode_failure_unprocessable_witness :
  let s := server (Cadet_Command (newServer "" "") "cmd" (Some (statusHandler http.StatusOK))) in
  http.StatusCode
    (resp (executeHandler s (request "POST" "/" "application/json" "invalid") fresh))
  = http.StatusUnprocessableEntity
  /\ http.StatusCode
       (resp (executeHandler s (multipartRequest "/" {["command" := [""]]}) fresh))
     = http.StatusUnprocessableEntity
  /\ http.StatusCode (resp (executeHandler s (multipartRequest "/" ∅) fresh))
     = http.StatusUnprocessableEntity.
Proof.
  intros s. split; [|split].
  - apply (decode_failure_unprocessable s
             (request "POST" "/" "application/json" "invalid") fresh);
      [reflexivity | | reflexivity].
    left. split; [reflexivity|]. right. by eexists _, _.
  - apply (decode_failure_unprocessable s
             (multipartRequest "/" {["command" := [""]]}) fresh);
      [reflexivity | | reflexivity].
    right. split; [reflexivity|]. right. left. reflexivity.
  - apply (decode_failure_unprocessable s (multipartRequest "/" ∅) fresh);
      [reflexivity | | reflexivity].
    right. split; [reflexivity|]. left. reflexivity.
Defined.

(** TestUnknownHandler. *)
Lemma unknown_command_not_found_witness :
  let s := server (Cadet_Command (newServer "" "") "known" (Some (statusHandler http.StatusOK))) in
  http.StatusCode
    (resp (executeHandler s (request "POST" "/" "application/json" (envelope "unknown")) fresh))
  = http.StatusNotFound.
Proof.
  intros s.
  apply (unknown_command_not_found s
           (request "POST" "/" "application/json" (envelope "unknown")) fresh
           (envelope "unknown") {| Name := "unknown"; Data := "" |});
    try reflexivity.
  vm_compute. discriminate.
Defined.

(** TestRequestReadCommand and TestContext: the handler runs once, on the
    bytes of the data field and on the context. TestNilResponse: without
    a directive nothing is written, and the status is the implicit 200.
    TestValidMultipart: the envelope in the form field command. *)
Lemma registered_command_dispatch_witness :
  let s := server (Cadet_Command (newServer "" "ctx") "cmd" (Some loggingHandler)) in
  let s' := server (Cadet_Command (newServer "" "") "cmd" (Some nilResponseHandler)) in
  let σ := executeHandler s
             (request "POST" "/" "application/json" envelopeWithData) fresh in
  let σ' := executeHandler s'
              (request "POST" "/" "application/json" (envelope "cmd")) fresh in
  let σ'' := executeHandler s
               (multipartRequest "/" {["command" := [envelopeWithData]]}) fresh in
  (user σ = ["handler(" +:+ fooBar +:+ ",ctx)"]
   /\ http.status (resp σ) = Some http.StatusOK)
  /\ (σ' = fresh /\ http.StatusCode (resp σ') = http.StatusOK)
  /\ (user σ'' = ["handler(" +:+ fooBar +:+ ",ctx)"]
      /\ http.status (resp σ'') = Some http.StatusOK).
Proof.
  intros s s' σ σ' σ''. split; [|split].
  - destruct (registered_command_dispatch s
                (request "POST" "/" "application/json" envelopeWithData) fresh
                envelopeWithData {| Name := "cmd"; Data := fooBar |} loggingHandler)
      as (_ & _ & Hdirective & _); try reflexivity.
    { left. split; reflexivity. }
    subst σ. rewrite (Hdirective (Status http.StatusOK) eq_refl).
    split; reflexivity.
  - destruct (registered_command_dispatch s'
                (request "POST" "/" "application/json" (envelope "cmd")) fresh
                (envelope "cmd") {| Name := "cmd"; Data := "" |} nilResponseHandler)
      as (_ & Hnone & _); try reflexivity.
    { left. split; reflexivity. }
    subst σ'. rewrite (Hnone eq_refl). split; reflexivity.
  - destruct (registered_command_dispatch s
                (multipartRequest "/" {["command" := [envelopeWithData]]}) fresh
                envelopeWithData {| Name := "cmd"; Data := fooBar |} loggingHandler)
      as (_ & _ & Hdirective & _); try reflexivity.
    { right. split; [reflexivity|]. split; [reflexivity|]. vm_compute. discriminate. }
    subst σ''. rewrite (Hdirective (Status http.StatusOK) eq_refl).
    split; reflexivity.
Defined.

(** The classifier on a declared type in another case, with a parameter. *)
Lemma getContentType_classifies_witness :
  getContentType (request "POST" "/" "Application/JSON; charset=UTF-8" "") = ContentTypeJSON
  /\ getContentType (request "POST" "/" "application/fake" "") = ContentTypeUnknown.
Proof.
  split.
  - apply (proj1 (proj2 getContentType_classifies)). reflexivity.
  - rewrite (proj1 getContentType_classifies). reflexivity.
Defined.

(** The server of TestStrictPath: in standalone mode without any serve
    entry point having run and while its listener serves; out of it, for
    good, once [ServeHTTP] has run. *)
Lemma standalone_is_reset_by_ServeHTTP :
  let c := Cadet_Command (newServer "/" "") "cmd" (Some (statusHandler http.StatusOK)) in
  let r := request "POST" "/strict" "application/json" (envelope "cmd") in
  let '(c1, u1, ws1) := step (c, []) (OpStart [r]) in
  let '(c2, u2, ws2) := step (c1, u1) (OpServeHTTP r) in
  let '(c3, u3, ws3) := step (c2, u2) (OpStart [r]) in
  standalone (server c) = true
  /\ standalone (server c1) = true /\ map http.StatusCode ws1 = [http.StatusNotFound]
  /\ standalone (server c2) = false /\ map http.StatusCode ws2 = [http.StatusOK]
  /\ standalone (server c3) = false /\ map http.StatusCode ws3 = [http.StatusOK].
Proof. vm_compute. by repeat split. Qed.

(** Once [ServeHTTP] has run, registrations, [Use], the listener and
    [Stop] leave the flag set. *)
Lemma strictMode_one_way_witness :
  let r := request "POST" "/strict" "application/json" (envelope "cmd") in
  let c := fst (ServeHTTP (newServer "/" "") r fresh) in
  strictMode (server (fst (fst
    (run (c, []) [OpStart [r]; OpCommands []; OpUse []; OpStop])))) = true.
Proof.
  intros r c.
  apply (strictMode_one_way (T := string) (U := Log)). reflexivity.
Defined.

(** TestSlashlessPath. *)
Lemma NewServer_normalises_config_witness :
  fst (NewServer (T := string) (U := Log) {| Bind := ":1234"; Path := "exec" |} "")
  = {| Bind := ":1234"; Path := "/exec" |}.
Proof.
  pose proof (NewServer_normalises_config (T := string) (U := Log)
                {| Bind := ":1234"; Path := "exec" |} "") as (Hpath & _ & _ & _ & _ & Hbind & _).
  specialize (Hpath eq_refl).
  destruct (fst (NewServer {| Bind := ":1234"; Path := "exec" |} "")) as [bind path'].
  simpl in *. by rewrite Hpath, Hbind.
Defined.

(** ** Further properties of the package *)

(** *** cors.go *)

Lemma Header_Add_lookup (key value key' : string) (h : gmap string (list string)) :
  http.Header_Add key value h !! key'
  = if decide (key = key') then Some (default [] (h !! key) ++ [value])
    else h !! key'.
Proof. unfold http.Header_Add. apply lookup_insert. Qed.

Section Cors.

Context {T U : Type} {lib : GoLib} {router : Router U}.

Implicit Types (s : @Server T U) (c : @Cadet T U) (r : http.Request)
  (σ : World U) (h : HandlerFunc U).

(** X1: [CORS] answers a request of method OPTIONS itself: the inner
    handler is not run, the user state and the body are left as they
    were, and on a writer without a status the client gets 200 and, for
    each of the five headers, the value of [CORS] after any the writer
    already held. *)
Theorem CORS_answers_preflight (origin : string) h r σ :
  http.Method r = "OPTIONS" ->
  (forall h', CORS origin h' r σ = CORS origin h r σ)
  /\ user (CORS origin h r σ) = user σ
  /\ http.body (resp (CORS origin h r σ)) = http.body (resp σ)
  /\ (http.status (resp σ) = None ->
      http.StatusCode (resp (CORS origin h r σ)) = http.StatusOK
      /\ Forall (fun kv =>
                   http.sent (resp (CORS origin h r σ)) !! fst kv
                   = Some (default [] (http.header (resp σ) !! fst kv) ++ [snd kv]))
           (corsHeaders origin)).
Proof.
  intros Hm. unfold CORS. rewrite Hm. simpl.
  split; [done|]. split; [done|]. split.
  { unfold http.WriteHeader. simpl. by destruct (http.status (resp σ)). }
  intros Hfresh. unfold http.WriteHeader, http.StatusCode. simpl.
  rewrite Hfresh. simpl. split; [done|].
  unfold corsHeaders.
  repeat constructor; simpl; rewrite !Header_Add_lookup;
    repeat (case_decide; try done).
Qed.

(** X2: with [CORS] first among the middleware given to [Use], a request
    whose method is not OPTIONS, letter for letter, is handled as if
    [CORS] were not installed: no header is added. *)
Theorem CORS_ignored_unless_options (origin : string)
    (middleware : list (Middleware U)) s r σ :
  http.Method r <> "OPTIONS" ->
  chain (CORS origin :: middleware) s r σ = chain middleware s r σ.
Proof.
  intros Hm. rewrite !chain_nest. unfold withStrictPath.
  case_match; [done|]. simpl. unfold CORS at 1.
  apply String.eqb_neq in Hm. by rewrite Hm.
Qed.

(** X3: with [CORS] first among the middleware given to [Use], a request
    of method OPTIONS that the strict-path guard lets through is answered
    by [CORS], whatever its content type and body and whatever middleware
    follows, where the dispatcher alone would refuse it with 415 or 405;
    one that the guard rejects gets the 404 of the guard and none of the
    headers of [CORS]. *)
Theorem CORS_preflight_in_chain (origin : string)
    (middleware : list (Middleware U)) s r σ :
  http.Method r = "OPTIONS" ->
  (~ (standalone s = true /\ path s = "/" /\ http.URL_Path r <> "/") ->
   forall h, chain (CORS origin :: middleware) s r σ = CORS origin h r σ)
  /\ (standalone s = true /\ path s = "/" /\ http.URL_Path r <> "/" ->
      chain (CORS origin :: middleware) s r σ
      = onWriter (http.WriteHeader http.StatusNotFound) σ
      /\ http.header (resp (chain (CORS origin :: middleware) s r σ))
         = http.header (resp σ))
  /\ (executeHandler s r σ
      = onWriter (http.WriteHeader http.StatusUnsupportedMediaType) σ
      \/ executeHandler s r σ
         = onWriter (http.WriteHeader http.StatusMethodNotAllowed)
             (onWriter (http.AddHeader "Allow" "POST") σ)).
Proof.
  intros Hm. split; [|split].
  - intros Hpass h. rewrite chain_nest, withStrictPath_forward by done.
    simpl. unfold CORS. by rewrite Hm.
  - intros (Hmode & Hpath & Hurl).
    rewrite chain_nest, withStrictPath_reject by done. split; [done|].
    simpl. unfold http.WriteHeader. by destruct (http.status (resp σ)).
  - destruct (getContentType r) eqn:Hk.
    + left. by apply executeHandler_unknown.
    + right. apply executeHandler_not_post; [by rewrite Hk|by rewrite Hm].
    + right. apply executeHandler_not_post; [by rewrite Hk|by rewrite Hm].
Qed.

End Cors.

(** *** The classifier and the outcomes of the dispatcher *)

Section Outcomes.

Context {T U : Type} {lib : GoLib} {router : Router U}.

Implicit Types (s : @Server T U) (c : @Cadet T U) (r : http.Request)
  (σ : World U) (h : HandlerFunc U).

Lemma getContentType_media r :
  getContentType r =
    let media :=
      GoStrings.ToLower unicodeLower
        (GoStrings.before ";" (http.Header_Get (http.Header r) "Content-Type")) in
    if String.eqb media "application/json" then ContentTypeJSON
    else if String.eqb media "multipart/form-data" then ContentTypeMultipart
    else ContentTypeUnknown.
Proof.
  unfold getContentType. rewrite Split_hd, contentTypes_lookup. simpl.
  repeat case_match; congruence.
Qed.

(** X4: a request that declares no content type (no Content-Type header,
    an empty one, or one that begins with a semicolon) is of unknown
    kind, and the dispatcher answers it 415 whatever its method. *)
Theorem missing_content_type_unsupported s r σ :
  http.Header r !! "Content-Type" = None
  \/ http.Header_Get (http.Header r) "Content-Type" = ""
  \/ (exists params,
        http.Header_Get (http.Header r) "Content-Type" = ";" +:+ params) ->
  getContentType r = ContentTypeUnknown
  /\ executeHandler s r σ
     = onWriter (http.WriteHeader http.StatusUnsupportedMediaType) σ.
Proof.
  intros Hdecl.
  assert (Hmedia : GoStrings.before ";"
                     (http.Header_Get (http.Header r) "Content-Type") = "").
  { destruct Hdecl as [Habs | [-> | [params ->]]]; [|done|done].
    unfold http.Header_Get. by rewrite Habs. }
  assert (Hk : getContentType r = ContentTypeUnknown)
    by (by rewrite getContentType_media, Hmedia).
  split; [done|]. by apply executeHandler_unknown.
Qed.

(** X5: on a declared content type whose part before the first semicolon
    is ASCII, the classifier does not depend on the Unicode branch of
    [strings.ToLower]: the kind is JSONBody exactly when that part equals
    application/json up to the case of letters, Multipart exactly when it
    equals multipart/form-data up to case, and Unknown otherwise; nothing
    is trimmed. *)
Theorem getContentType_ascii r :
  GoStrings.allBytes GoStrings.isASCII
    (GoStrings.before ";" (http.Header_Get (http.Header r) "Content-Type")) = true ->
  let media := GoStrings.before ";" (http.Header_Get (http.Header r) "Content-Type") in
  (getContentType r = ContentTypeJSON
   <-> GoStrings.equalFoldASCII media "application/json")
  /\ (getContentType r = ContentTypeMultipart
      <-> GoStrings.equalFoldASCII media "multipart/form-data")
  /\ (getContentType r = ContentTypeUnknown
      <-> ~ GoStrings.equalFoldASCII media "application/json"
          /\ ~ GoStrings.equalFoldASCII media "multipart/form-data").
Proof.
  intros Hascii media. rewrite getContentType_media. fold media. simpl.
  unfold GoStrings.ToLower. fold media in Hascii. rewrite Hascii.
  unfold GoStrings.equalFoldASCII.
  change (GoStrings.mapBytes GoStrings.lowerByte "application/json")
    with "application/json".
  change (GoStrings.mapBytes GoStrings.lowerByte "multipart/form-data")
    with "multipart/form-data".
  destruct (String.eqb_spec (GoStrings.mapBytes GoStrings.lowerByte media)
              "application/json") as [Hj|Hj].
  { rewrite Hj. repeat split; try done. by intros [? _]. }
  destruct (String.eqb_spec (GoStrings.mapBytes GoStrings.lowerByte media)
              "multipart/form-data") as [Hm|Hm].
  { rewrite Hm. repeat split; try done. by intros [_ ?]. }
  repeat split; try done.
Qed.



End Outcomes.

(** *** The registry *)

Section Registry.

Context {T U : Type} {lib : GoLib} {router : Router U}.

Implicit Types (s : @Server T U) (c : @Cadet T U) (r : http.Request)
  (σ : World U) (h : HandlerFunc U)
  (args : list (any (@CommandHandler T U)))
  (pairs : list (string * option (@CommandHandler T U))).

Lemma mod2_S_odd (i : nat) : (i mod 2 <> 0 -> S i mod 2 = 0)%nat.
Proof.
  intros Hi.
  pose proof (Nat.div_mod_eq i 2). pose proof (Nat.div_mod_eq (S i) 2).
  pose proof (Nat.mod_upper_bound i 2). pose proof (Nat.mod_upper_bound (S i) 2).
  lia.
Qed.

Lemma parity_next (i : nat) :
  Nat.eqb (i mod 2) 0 = false -> Nat.eqb (S i mod 2) 0 = true.
Proof.
  intros Hi. apply Nat.eqb_neq in Hi. apply Nat.eqb_eq. by apply mod2_S_odd.
Qed.

Lemma registerPairs_lookup_from pairs (name : string) :
  forall s (found : option (option CommandHandler))
         (base : option (option CommandHandler)),
    handlers s !! name = from_option Some base found ->
    handlers (registerPairs s pairs) !! name
    = from_option Some base
        (fold_left
           (fun found p => if String.eqb (fst p) name then Some (snd p) else found)
           pairs found).
Proof.
  induction pairs as [|[name' handler] pairs IH]; intros s found base Hs; [done|].
  cbn [registerPairs fold_left]. apply IH. simpl.
  destruct (String.eqb_spec name' name) as [->|Hne]; simpl.
  - by rewrite lookup_insert_eq.
  - by rewrite lookup_insert_ne.
Qed.

Lemma registerPairs_lookup pairs (name : string) s :
  handlers (registerPairs s pairs) !! name
  = from_option Some (handlers s !! name) (lastRegistered pairs name).
Proof. by apply registerPairs_lookup_from. Qed.

(** [Commands] on a non-empty list of well-formed pairs. *)
Lemma Commands_pairArgs c pairs :
  pairs <> [] ->
  Commands c (pairArgs pairs) = (withServer c (registerPairs (server c) pairs), None).
Proof.
  intros Hne. unfold Commands.
  rewrite length_pairArgs.
  assert (Hlen : Nat.eqb (2 * length pairs) 0 = false)
    by (apply Nat.eqb_neq; destruct pairs; [done|simpl; lia]).
  assert (Heven : Nat.eqb ((2 * length pairs) mod 2) 0 = true).
  { apply Nat.eqb_eq.
    replace (2 * length pairs)%nat with (0 + length pairs * 2)%nat by lia.
    by rewrite Nat.Div0.mod_add. }
  rewrite Hlen, Heven. simpl.
  destruct (Commands_loop_pairs pairs 0 "" [] (server c))
    as (j & current & Hj & Hloop); [done|].
  rewrite app_nil_r in Hloop. by rewrite Hloop.
Qed.

(** X7: after a successful bulk registration every name given is
    registered with the handler of the last pair that names it (a later
    pair overwrites an earlier one of the same name, silently), and every
    other name is registered as it was before. *)
Theorem Commands_last_pair_wins c pairs :
  pairs <> [] ->
  snd (Commands c (pairArgs pairs)) = None
  /\ (forall name,
        handlers (server (fst (Commands c (pairArgs pairs)))) !! name
        = match lastRegistered pairs name with
          | Some handler => Some handler
          | None => handlers (server c) !! name
          end)
  /\ (forall name (handler handler' : option CommandHandler),
        handlers (server (fst (Commands c
          (pairArgs (pairs ++ [(name, handler); (name, handler')]))))) !! name
        = Some handler').
Proof.
  intros Hne. rewrite Commands_pairArgs by done. split; [done|]. split.
  - intros name. simpl. rewrite registerPairs_lookup.
    by destruct (lastRegistered pairs name).
  - intros name handler handler'.
    rewrite Commands_pairArgs by (by destruct pairs).
    simpl. rewrite registerPairs_lookup. unfold lastRegistered.
    rewrite fold_left_app. simpl. by rewrite String.eqb_refl.
Qed.

Lemma Commands_loop_frame args (name : string) :
  forall (i : nat) (current : string) s,
    (Nat.eqb (i mod 2) 0 = false -> current <> name) ->
    (forall arg, arg ∈ args -> arg <> any_string name) ->
    let s' := fst (Commands_loop i args current s) in
    handlers s' !! name = handlers s !! name
    /\ path s' = path s /\ context s' = context s.
Proof.
  induction args as [|arg args IH]; intros i current s Hcur Hargs; [done|].
  cbn [Commands_loop].
  assert (Htail : forall a, a ∈ args -> a <> any_string name)
    by (intros a Ha; apply Hargs; by right).
  destruct (Nat.eqb (i mod 2) 0) eqn:Hi; simpl.
  - destruct arg as [name'| |]; simpl; [|done|done].
    apply IH; [|done]. intros _ ->. apply (Hargs (any_string name)); [by left|done].
  - destruct arg as [|handler|]; simpl; [done| |done].
    destruct (IH (S i) "" (Server_Command s current handler)) as (Hh & Hp & Hc);
      [by rewrite parity_next|done|].
    rewrite Hh, Hp, Hc. simpl. by rewrite lookup_insert_ne by (by apply Hcur).
Qed.

(** X8: bulk registration, whether it succeeds or fails, and wherever it
    fails, leaves alone every name that is not one of its string
    arguments, and writes nothing but the registry: the command path, the
    context, the mode flag and the [http.Server] stay as they were. *)
Theorem Commands_frame c args (name : string) :
  (forall arg, arg ∈ args -> arg <> any_string name) ->
  let c' := fst (Commands c args) in
  handlers (server c') !! name = handlers (server c) !! name
  /\ path (server c') = path (server c)
  /\ context (server c') = context (server c)
  /\ strictMode (server c') = strictMode (server c)
  /\ httpServer c' = httpServer c.
Proof.
  intros Hargs c'. subst c'.
  pose proof (Commands_strictMode c args) as Hmode.
  unfold Commands in *. case_match; [done|].
  pose proof (Commands_loop_frame args name 0 "" (server c)) as Hframe.
  destruct (Commands_loop 0 args "" (server c)) as [s' err]. simpl in *.
  destruct Hframe as (Hh & Hp & Hc); [done|done|]. by repeat split.
Qed.

Lemma getHandler_named s r (kind : ContentType) (data : string) (command : Command) :
  envelopeData r kind = inr data ->
  json_Unmarshal data = inr command ->
  getHandler s r kind
  = match default None (handlers s !! Name command) with
    | None => (None, None, None)
    | Some handler => (Some handler, Some command, None)
    end.
Proof. unfold getHandler. by intros -> ->. Qed.

(** X9: a nil function of the handler type is accepted by the bulk
    registration, and a name registered with it answers 404 like a name
    that was never registered, whatever handler the name had before. *)
Theorem nil_handler_unregisters c (name : string) r σ (data : string)
    (command : Command) :
  getContentType r <> ContentTypeUnknown ->
  http.Method r = "POST" ->
  envelopeData r (getContentType r) = inr data ->
  json_Unmarshal data = inr command ->
  Name command = name ->
  Commands c [any_string name; any_handler None] = (Cadet_Command c name None, None)
  /\ executeHandler (server (Cadet_Command c name None)) r σ
     = onWriter (http.WriteHeader http.StatusNotFound) σ.
Proof.
  intros Hk Hm Hdata Hjson Hname. split; [done|].
  rewrite executeHandler_post by done.
  rewrite (getHandler_named _ _ _ data command) by done.
  simpl. by rewrite Hname, lookup_insert_eq.
Qed.

(** X10: after [Command] has registered a handler under a name, a
    well-formed POST whose envelope names it runs that handler, whatever
    the name held before and whether [Use] installed its chain before or
    after; and the registration changes the answer of no request whose
    envelope names another command or does not decode. *)
Theorem Command_then_dispatch c (middleware : list (Middleware U))
    (name : string) (handler : CommandHandler) r σ :
  let s' := Server_Command (server c) name (Some handler) in
  Use (Cadet_Command c name (Some handler)) middleware
  = Cadet_Command (Use c middleware) name (Some handler)
  /\ registered (Handler (Cadet_Command (Use c middleware) name (Some handler))) s'
     = withStrictPath s' (nest middleware (executeHandler s'))
  /\ (forall data command,
        getContentType r <> ContentTypeUnknown ->
        http.Method r = "POST" ->
        envelopeData r (getContentType r) = inr data ->
        json_Unmarshal data = inr command ->
        Name command = name ->
        executeHandler s' r σ = invoke handler s' command r σ)
  /\ ((forall data command,
         envelopeData r (getContentType r) = inr data ->
         json_Unmarshal data = inr command ->
         Name command <> name) ->
      executeHandler s' r σ = executeHandler (server c) r σ).
Proof.
  intros s'. split; [done|]. split; [apply chain_nest|]. split.
  - intros data command Hk Hm Hdata Hjson Hname.
    rewrite executeHandler_post by done.
    rewrite (getHandler_named _ _ _ data command) by done.
    subst s'. simpl. by rewrite Hname, lookup_insert_eq.
  - intros Hother.
    assert (Hget : getHandler s' r (getContentType r)
                   = getHandler (server c) r (getContentType r)).
    { unfold getHandler.
      destruct (envelopeData r (getContentType r)) as [?|data] eqn:Hdata; [done|].
      destruct (json_Unmarshal data) as [?|command] eqn:Hjson; [done|].
      subst s'. simpl. by rewrite lookup_insert_ne by (symmetry; eauto). }
    unfold executeHandler. by rewrite Hget.
Qed.

End Registry.

(** *** What stays fixed, and the two ways in *)

Section Fixed.

Context {T U : Type} {lib : GoLib} {router : Router U}.

Implicit Types (s : @Server T U) (c : @Cadet T U) (r : http.Request)
  (σ : World U) (h : HandlerFunc U) (u : U).

Lemma Commands_loop_setup (args : list (any CommandHandler)) :
  forall (i : nat) (current : string) s,
    path (fst (Commands_loop i args current s)) = path s
    /\ context (fst (Commands_loop i args current s)) = context s.
Proof.
  induction args as [|arg args IH]; intros i current s; [done|].
  cbn [Commands_loop].
  destruct (Nat.eqb (i mod 2) 0); simpl.
  - destruct arg; simpl; [apply IH|done|done].
  - destruct arg as [|handler|]; simpl; [done| |done].
    by destruct (IH (S i) "" (Server_Command s current handler)) as [-> ->].
Qed.

Lemma step_setup c u (op : Op) :
  sameSetup c (fst (fst (step (c, u) op)))
  /\ (pattern (Handler c) = path (server c) ->
      pattern (Handler (fst (fst (step (c, u) op))))
      = path (server (fst (fst (step (c, u) op))))).
Proof.
  unfold sameSetup. destruct op; simpl; try done.
  - unfold Commands. case_match; [done|].
    pose proof (Commands_loop_setup args 0 "" (server c)) as [Hp Hc].
    destruct (Commands_loop 0 args "" (server c)) as [s' err]. simpl in *.
    rewrite Hp, Hc. by repeat split.
  - by destruct (Start c accepted u).
Qed.

Lemma run_setup (ops : list Op) :
  forall c u,
    pattern (Handler c) = path (server c) ->
    sameSetup c (fst (fst (run (c, u) ops)))
    /\ pattern (Handler (fst (fst (run (c, u) ops))))
       = path (server (fst (fst (run (c, u) ops)))).
Proof.
  induction ops as [|op ops IH]; intros c u Hpat; [by repeat split|].
  cbn [run].
  pose proof (step_setup c u op) as [Hstep Hpat'].
  destruct (step (c, u) op) as [[c' u'] ws]. simpl in Hstep, Hpat'.
  destruct (IH c' u' (Hpat' Hpat)) as [Hrun Hpat''].
  destruct (run (c', u') ops) as [[c'' u''] ws']. simpl in *.
  unfold sameSetup in *. split; [|done].
  destruct Hstep as (? & ? & ? & ? & ?), Hrun as (? & ? & ? & ? & ?).
  repeat split; congruence.
Qed.

(** X11: whatever operations follow the construction (registrations,
    [Use], requests through either entry, [Start], [Stop]), the command
    path of the server stays the normalised path of its configuration and
    begins with a slash, the pattern registered in the mux stays that
    path, and the context, the bind address and the two timeouts stay
    those of the construction. *)
Theorem setup_is_fixed (config : Config) (context' : T) (ops : list Op) u :
  let config' := fst (NewServer (U := U) config context') in
  let c := fst (fst (run (snd (NewServer config context'), u) ops)) in
  path (server c) = Path config'
  /\ GoStrings.HasPrefix (path (server c)) "/" = true
  /\ pattern (Handler c) = Path config'
  /\ context (server c) = context'
  /\ Addr (httpServer c) = Bind config
  /\ ReadTimeout (httpServer c) = (5 * 1000000000)%Z
  /\ WriteTimeout (httpServer c) = (10 * 1000000000)%Z.
Proof.
  intros config' c.
  destruct (run_setup ops (snd (NewServer config context')) u) as [Hsame Hpat];
    [done|].
  fold c in Hsame, Hpat. destruct Hsame as (Hp & Hc & Ha & Hr & Hw).
  rewrite Hpat, Hp, Hc, Ha, Hr, Hw. subst config'.
  unfold NewServer. simpl.
  destruct (GoStrings.HasPrefix (Path config) "/") eqn:Hprefix; simpl;
    repeat split; try done.
  unfold GoStrings.HasPrefix. simpl. by destruct (Path config).
Qed.

(** X12: the strict-path guard can reject only in a server configured
    with the path "/" or with the empty path, which is normalised to "/":
    with any other configured path the command path is not "/", and the
    guard lets every request through to the inner handler, in either
    mode. *)
Theorem guard_only_at_root (config : Config) (context' : T) :
  let c := snd (NewServer (U := U) config context') in
  (Path config = "" \/ Path config = "/" -> path (server c) = "/")
  /\ (Path config <> "" -> Path config <> "/" ->
      path (server c) <> "/"
      /\ forall s h r σ,
           path s = path (server c) -> withStrictPath s h r σ = h r σ).
Proof.
  intros c. subst c. unfold NewServer. simpl. split.
  - intros [Hcfg | Hcfg]; rewrite Hcfg; simpl; by rewrite ?Hcfg.
  - intros Hempty Hroot.
    assert (Hpath : Path (if negb (GoStrings.HasPrefix (Path config) "/")
                          then {| Bind := Bind config; Path := "/" +:+ Path config |}
                          else config) <> "/").
    { destruct (GoStrings.HasPrefix (Path config) "/"); simpl; [done|].
      intros Heq. injection Heq as Heq. done. }
    split; [done|].
    intros s h r σ Hs. apply withStrictPath_forward.
    intros (_ & Hslash & _). by rewrite Hs in Hslash.
Qed.

(** X13: once [ServeHTTP] has run, it changes the server no more, and a
    request accepted on the server's own listener is handled exactly as
    one that comes through [ServeHTTP]: a server that is both mounted and
    started no longer rejects paths on its own listener. *)
Theorem mounted_then_listening c r σ r' u :
  let c' := fst (ServeHTTP c r σ) in
  fst (ServeHTTP c' r' {| resp := http.newResponseWriter; user := u |}) = c'
  /\ listenerServe c' r' u
     = snd (ServeHTTP c' r' {| resp := http.newResponseWriter; user := u |})
  /\ forall (middleware : list (Middleware U)),
       registered (Handler (Use c' middleware)) (server c') r'
         {| resp := http.newResponseWriter; user := u |}
       = nest middleware (executeHandler (server c')) r'
           {| resp := http.newResponseWriter; user := u |}.
Proof.
  intros c'. split; [done|]. split; [done|].
  intros middleware. simpl. rewrite chain_nest.
  apply withStrictPath_forward. by intros [? _].
Qed.

End Fixed.

(** *** response.go *)

Section Directives.

Context {U : Type}.

Implicit Types (σ : World U).





End Directives.

(** ** Further scenarios of cadet_test.go *)

(** TestCORS. *)
Lemma CORS_answers_preflight_witness :
  let r := request "OPTIONS" "/" "application/json" (envelope "strict") in
  let σ := CORS "*" (executeHandler (server (newServer "/" ""))) r fresh in
  http.StatusCode (resp σ) = http.StatusOK
  /\ http.sent (resp σ) !! "Access-Control-Allow-Origin" = Some ["*"].
Proof.
  intros r σ.
  destruct (CORS_answers_preflight "*" (executeHandler (server (newServer "/" "")))
              r fresh eq_refl) as (_ & _ & _ & Hfresh).
  destruct (Hfresh eq_refl) as [Hstatus Hheaders].
  split; [exact Hstatus|].
  apply Forall_cons in Hheaders as [Horigin _]. exact Horigin.
Defined.

(** TestCORSIgnoredUnlessOptions. *)
Lemma CORS_ignored_unless_options_witness :
  let s := server (Cadet_Command (newServer "/" "") "cmd" (Some (statusHandler http.StatusOK))) in
  let r := request "POST" "/" "application/json" (envelope "cmd") in
  chain [CORS "*"] s r fresh = chain [] s r fresh.
Proof.
  intros s r. apply (CORS_ignored_unless_options "*" [] s r fresh). discriminate.
Defined.

(** A preflight request to a path that the guard rejects. *)
Lemma CORS_preflight_in_chain_witness :
  let s := server (newServer "/" "") in
  let r := request "OPTIONS" "/strict" "application/json" "" in
  chain [CORS "*"] s r fresh = onWriter (http.WriteHeader http.StatusNotFound) fresh.
Proof.
  intros s r.
  apply (CORS_preflight_in_chain "*" [] s r fresh eq_refl). by repeat split.
Defined.

(** A POST without a Content-Type header. *)
Lemma missing_content_type_unsupported_witness :
  let r := {| http.Method := "POST"; http.URL_Path := "/"; http.Header := ∅;
              http.Body := inr (envelope "cmd"); http.Form := ∅ |} in
  executeHandler (server (newServer "" "")) r fresh
  = onWriter (http.WriteHeader http.StatusUnsupportedMediaType) fresh.
Proof.
  intros r. apply (missing_content_type_unsupported (server (newServer "" "")) r fresh).
  by left.
Defined.

(** A space before the semicolon is part of the media type. *)
Lemma getContentType_ascii_witness :
  getContentType (request "POST" "/" "application/json ; charset=utf-8" "")
  = ContentTypeUnknown.
Proof.
  apply (getContentType_ascii
           (request "POST" "/" "application/json ; charset=utf-8" "") eq_refl).
  split; intros Hfold; vm_compute in Hfold; discriminate.
Defined.

(** TestMultipleCommands, with a name given twice. *)
Lemma Commands_last_pair_wins_witness :
  let c := newServer "/" "" in
  handlers (server (fst (Commands c
    [any_string "cmd"; any_handler (Some (statusHandler 200));
     any_string "cmd"; any_handler (Some (statusHandler 202))]))) !! "cmd"
  = Some (Some (statusHandler 202)).
Proof.
  intros c.
  assert (Hne : [("cmd", Some (statusHandler 200)); ("cmd", Some (statusHandler 202))]
                <> ([] : list (string * option handlerType))) by discriminate.
  exact (proj1 (proj2 (Commands_last_pair_wins c _ Hne)) "cmd").
Defined.

(** TestAddCommands: a failing call leaves a command of another name. *)
Lemma Commands_frame_witness :
  let c := Cadet_Command (newServer "/" "") "known" (Some (statusHandler 200)) in
  handlers (server (fst (Commands c
    [any_string "cmd1"; any_handler (Some (statusHandler 200));
     any_string "cmd2"; any_other]))) !! "known"
  = Some (Some (statusHandler 200)).
Proof.
  intros c.
  refine (proj1 (Commands_frame c
    [any_string "cmd1"; any_handler (Some (statusHandler 200));
     any_string "cmd2"; any_other] "known" _)).
  intros arg Harg ->.
  repeat (apply elem_of_cons in Harg as [Harg|Harg]; [discriminate|]).
  by apply elem_of_nil in Harg.
Defined.

(** A handler replaced by nil. *)
Lemma nil_handler_unregisters_witness :
  let c := Cadet_Command (newServer "" "") "cmd" (Some (statusHandler 200)) in
  let r := request "POST" "/" "application/json" (envelope "cmd") in
  executeHandler (server (Cadet_Command c "cmd" None)) r fresh
  = onWriter (http.WriteHeader http.StatusNotFound) fresh.
Proof.
  intros c r.
  refine (proj2 (nil_handler_unregisters c "cmd" r fresh (envelope "cmd")
                   {| Name := "cmd"; Data := "" |} _ eq_refl eq_refl eq_refl eq_refl)).
  vm_compute. discriminate.
Defined.




(** TestCustomPath: the guard is inert off the root. *)
Lemma guard_only_at_root_witness :
  let c := newServer "/cmd" "" in
  let r := request "POST" "/cmd/other" "application/json" (envelope "cmd") in
  withStrictPath (server c) (executeHandler (server c)) r fresh
  = executeHandler (server c) r fresh.
Proof.
  intros c r.
  refine (proj2 (proj2 (guard_only_at_root (T := string) (U := Log)
                          {| Bind := ""; Path := "/cmd" |} "") _ _)
            (server c) _ r fresh eq_refl); discriminate.
Defined.

(** TestMiddleware: the command is registered after [Use] was called. *)
Lemma Command_then_dispatch_witness :
  let c := Use (newServer "/" "ctx") [orderMiddleware "1"] in
  let s' := server (Cadet_Command c "cmd" (Some loggingHandler)) in
  let r := request "POST" "/" "application/json" (envelope "cmd") in
  executeHandler s' r fresh
  = invoke loggingHandler s' {| Name := "cmd"; Data := "" |} r fresh.
Proof.
  intros c s' r.
  refine (proj1 (proj2 (proj2 (Command_then_dispatch c [] "cmd" loggingHandler r fresh)))
            (envelope "cmd") {| Name := "cmd"; Data := "" |} _ eq_refl eq_refl eq_refl eq_refl).
  vm_compute. discriminate.
Defined.
